(** * ML-Ensemble tutorial scripts: layer.py, parallel.py, learner.py

    The repository holds the tutorial scripts of the ML-Ensemble
    documentation.  The scripts are drivers: they import the [mlens]
    package, build learners, groups, layers and a parallel manager, run
    jobs and print what comes back.  A few small helpers are defined
    locally: [error_scorer] and the [Error] transformer in parallel.py,
    [mse] and a one-line [run] in learner.py.

    The development has three parts.

    - [Source]: the statements of the four files, transcribed with their
      line numbers, and the static analyses read off them (which names
      are bound by which statement, which calls reach the library, what
      a name resolves to at a given line).
    - [Numpy], [ErrorTransformer], [Seeding]: what the locally defined
      code and the random-number preamble of each script compute.
    - [Mlens]: the behaviour of the library that the tutorials narrate,
      written down from that narration, with the script fragments that
      drive it. *)

From stdpp Require Import base strings list gmap pretty.

Set Warnings "-register-all".

Local Open Scope string_scope.
Local Open Scope Z_scope.
Local Open Scope list_scope.

(** ** Python exceptions and fallible results *)

(** [except Exception] catches every exception class derived from
    [Exception]; [KeyboardInterrupt], [SystemExit] and the like derive
    from [BaseException] only and pass through such a handler. *)
Inductive exn : Type :=
| PyException (cls msg : string)
| PyBaseException (cls msg : string).

Definition exn_message (e : exn) : string :=
  match e with PyException _ m | PyBaseException _ m => m end.

Inductive result (A : Type) : Type :=
| Ok (a : A)
| Raise (e : exn).
Arguments Ok {A} a.
Arguments Raise {A} e.

#[global] Instance result_ret : MRet result := @Ok.
#[global] Instance result_bind : MBind result := λ A B k r,
  match r with Ok a => k a | Raise e => Raise e end.

Definition raises {A} (r : result A) : Prop := ∃ e, r = Raise e.

(** ** The source files, statement by statement *)

Module Source.

(** Expressions of the Python subset the scripts use.  A float literal
    keeps its text; a call keeps positional and keyword arguments
    apart. *)
Inductive expr : Type :=
| EName (x : string)
| EAttr (e : expr) (a : string)
| ECall (f : expr) (args : list expr) (kwargs : list (string * expr))
| EStr (s : string)
| EInt (n : Z)
| EFloat (s : string)
| ENone
| ETrue
| EFalse
| EList (es : list expr)
| ETuple (es : list expr)
| EDict (kvs : list (expr * expr))
| EBinOp (op : string) (l r : expr)
| ECompare (op : string) (l r : expr)
| EIfExp (c t e : expr)
| ESubscript (e i : expr)
| EStarred (e : expr).

(** Statements carry the line they start on.  Docstrings and comments
    carry no code and are left out but for a marker. *)
Inductive stmt : Type :=
| SDocstring (line : nat)
| SImportFrom (line : nat) (module : string) (names : list string)
| SImport (line : nat) (names : list (string * option string))
| SAssign (line : nat) (target value : expr)
| SExpr (line : nat) (e : expr)
| SFor (line : nat) (target : string) (iter : expr) (body : list stmt)
| SIf (line : nat) (cond : expr) (body : list stmt)
| STry (line : nat) (body : list stmt) (exc name : string) (handler : list stmt)
| SWith (line : nat) (ctx : expr) (name : string) (body : list stmt)
| SDef (line : nat) (name : string) (params : list string) (body : list stmt)
| SClass (line : nat) (name : string) (bases : list string) (body : list stmt)
| SReturn (line : nat) (e : expr).

Definition line_of (s : stmt) : nat :=
  match s with
  | SDocstring l | SImportFrom l _ _ | SImport l _ | SAssign l _ _
  | SExpr l _ | SFor l _ _ _ | SIf l _ _ | STry l _ _ _ _ | SWith l _ _ _
  | SDef l _ _ _ | SClass l _ _ _ | SReturn l _ => l
  end.

(** Shorthands that keep the transcription close to the Python text. *)
Definition call (f : expr) (args : list expr) : expr := ECall f args [].
Definition callk (f : expr) (args : list expr) (kw : list (string * expr)) : expr :=
  ECall f args kw.
Definition meth (recv : string) (m : string) : expr := EAttr (EName recv) m.
Definition np (a : string) : expr := EAttr (EName "np") a.
Definition np_random (a : string) : expr := EAttr (EAttr (EName "np") "random") a.
Definition print_ (l : nat) (args : list expr) : stmt := SExpr l (call (EName "print") args).

(** X = np.arange(20).reshape(10, 2) *)
Definition X_rhs : expr :=
  call (EAttr (call (np "arange") [EInt 20]) "reshape") [EInt 10; EInt 2].

(** np.zeros((y.shape[0], k)) *)
Definition zeros_like_y (k : Z) : expr :=
  call (np "zeros")
    [ETuple [ESubscript (EAttr (EName "y") "shape") (EInt 0); EInt k]].

(** run(layer, 'fit', X, y, return_preds=True) *)
Definition run_fit_preds : expr :=
  callk (EName "run") [EName "layer"; EStr "fit"; EName "X"; EName "y"]
        [("return_preds", ETrue)].

(** *** src/info/_downloads/layer.py *)
Definition layer_py : list stmt :=
  [ SDocstring 2
  ; SImportFrom 42 "mlens.parallel" ["Layer"; "Group"; "make_group"; "run"]
  ; SImportFrom 43 "mlens.utils.dummy" ["OLS"; "Scale"]
  ; SImportFrom 44 "mlens.index" ["FoldIndex"]
  ; SAssign 47 (EName "indexer") (callk (EName "FoldIndex") [] [("folds", EInt 2)])
  ; SAssign 48 (EName "group")
      (call (EName "make_group")
         [ EName "indexer"
         ; EList [call (EName "OLS") [EInt 1]; call (EName "OLS") [EInt 2]]
         ; ENone ])
  ; SImport 56 [("numpy", Some "np")]
  ; SExpr 58 (call (np_random "seed") [EInt 2])
  ; SAssign 60 (EName "X") X_rhs
  ; SAssign 61 (EName "y") (call (np_random "rand") [EInt 10])
  ; SAssign 65 (EName "layer") (callk (EName "Layer") [] [("stack", EName "group")])
  ; print_ 67 [run_fit_preds]
  ; SAssign 75 (EName "group")
      (call (EName "make_group")
         [ EName "indexer"
         ; EList [call (EName "OLS") [EInt 1]; call (EName "OLS") [EInt 2]]
         ; EList [call (EName "Scale") []] ])
  ; SAssign 77 (EName "layer") (callk (EName "Layer") [] [("stack", EName "group")])
  ; print_ 79 [run_fit_preds]
  ; SAssign 93 (EName "group")
      (call (EName "make_group")
         [ EName "indexer"
         ; EDict [ (EStr "case-1", EList [call (EName "OLS") [EInt 1]])
                 ; (EStr "case-2", EList [call (EName "OLS") [EInt 2]]) ]
         ; EDict [ (EStr "case-1", EList [call (EName "Scale") []])
                 ; (EStr "case-2", EList []) ] ])
  ; SAssign 99 (EName "layer") (callk (EName "Layer") [] [("stack", EName "group")])
  ; print_ 101 [run_fit_preds]
  ; SAssign 108 (EName "groups")
      (EList
         [ call (EName "make_group")
             [EName "indexer"; call (EName "OLS") [EInt 1]; call (EName "Scale") []]
         ; call (EName "make_group")
             [EName "indexer"; call (EName "OLS") [EInt 2]; ENone] ])
  ; SAssign 112 (EName "layer") (callk (EName "Layer") [] [("stack", EName "groups")])
  ; print_ 114 [run_fit_preds]
  ; SAssign 130 (EName "groups")
      (EList
         [ call (EName "make_group")
             [ call (EName "FoldIndex") [EInt 2]; call (EName "OLS") [EInt 1]
             ; call (EName "Scale") [] ]
         ; call (EName "make_group")
             [ call (EName "FoldIndex") [EInt 4]; call (EName "OLS") [EInt 2]; ENone ] ])
  ; SAssign 135 (EName "layer") (callk (EName "Layer") [] [("stack", EName "groups")])
  ; print_ 137 [run_fit_preds]
  ; SImportFrom 146 "mlens.index" ["BlendIndex"]
  ; SAssign 148 (EName "groups")
      (EList
         [ call (EName "make_group")
             [ call (EName "FoldIndex") [EInt 2]; call (EName "OLS") [EInt 1]; ENone ]
         ; call (EName "make_group")
             [ call (EName "BlendIndex") [EFloat "0.5"]; call (EName "OLS") [EInt 1]
             ; ENone ] ])
  ; SAssign 153 (EName "layer") (callk (EName "Layer") [] [("stack", EName "groups")])
  ; print_ 154 [run_fit_preds]
  ; SAssign 172 (EName "layer") (call (EName "Layer") [])
  ; SAssign 173 (EName "group")
      (call (EName "make_group")
         [call (EName "FoldIndex") [EInt 4]; call (EName "OLS") []; ENone])
  ; SExpr 174 (call (meth "layer" "push") [EName "group"])
  ; SExpr 183 (call (EName "run") [EName "layer"; EStr "fit"; EName "X"; EName "y"])
  ; SAssign 185 (EName "group")
      (call (EName "make_group")
         [call (EName "FoldIndex") [EInt 2]; call (EName "OLS") [EInt 1]; ENone])
  ; SExpr 186 (call (meth "layer" "push") [EName "group"])
  ; STry 188
      [ SExpr 189
          (call (EName "run") [EName "layer"; EStr "predict"; EName "X"; EName "y"]) ]
      "Exception" "exc"
      [ print_ 191
          [EBinOp "%" (EStr "Error: %s") (call (EName "str") [EName "exc"])] ]
  ; SImportFrom 198 "mlens.metrics" ["rmse"]
  ; SAssign 200 (EName "layer") (call (EName "Layer") [])
  ; SAssign 201 (EName "group1")
      (callk (EName "make_group")
         [ EName "indexer"
         ; EDict [ (EStr "case-1", EList [call (EName "OLS") [EInt 1]])
                 ; (EStr "case-2", EList [call (EName "OLS") [EInt 2]]) ]
         ; EDict [ (EStr "case-1", EList [call (EName "Scale") []])
                 ; (EStr "case-2", EList []) ] ]
         [("learner_kwargs", EDict [(EStr "scorer", EName "rmse")])])
  ; SExpr 208 (call (meth "layer" "push") [EName "group1"])
  ; SExpr 210 run_fit_preds
  ; print_ 211 []
  ; print_ 212 [EStr "Collected data:"]
  ; print_ 213 [EAttr (EName "layer") "data"]
  ].

(** *** src/info/source/tutorials_source/layer.py *)
Definition layer_source_py : list stmt :=
  [ SDocstring 2
  ; SImportFrom 32 "mlens.parallel" ["Layer"]
  ].

(** Learner(estimator=OLS(), indexer=indexer, ...) with further keywords. *)
Definition Learner_call (kw : list (string * expr)) : expr :=
  callk (EName "Learner") [] kw.

(** 'fmt' % (i + 1) *)
Definition fmt_i_plus_1 (fmt : string) : expr :=
  EBinOp "%" (EStr fmt) (EBinOp "+" (EName "i") (EInt 1)).

(** *** src/info/_downloads/parallel.py *)
Definition parallel_py : list stmt :=
  [ SDocstring 2
  ; SImportFrom 42 "mlens.parallel" ["ParallelProcessing"; "Job"; "Learner"]
  ; SImportFrom 43 "mlens.index" ["FoldIndex"]
  ; SImportFrom 44 "mlens.utils.dummy" ["OLS"]
  ; SImport 46 [("numpy", Some "np")]
  ; SExpr 48 (call (np_random "seed") [EInt 2])
  ; SAssign 50 (EName "X") X_rhs
  ; SAssign 51 (EName "y") (call (np_random "rand") [EInt 10])
  ; SAssign 53 (EName "indexer") (callk (EName "FoldIndex") [] [("folds", EInt 2)])
  ; SAssign 54 (EName "learner")
      (Learner_call [ ("estimator", call (EName "OLS") [])
                    ; ("indexer", EName "indexer")
                    ; ("name", EStr "ols") ])
  ; SAssign 58 (EName "manager")
      (callk (EName "ParallelProcessing") [] [("n_jobs", EInt (-1))])
  ; SAssign 60 (EName "out")
      (callk (meth "manager" "map")
         [EName "learner"; EStr "fit"; EName "X"; EName "y"]
         [("return_preds", ETrue)])
  ; print_ 62 [EName "out"]
  ; SImportFrom 75 "mlens.parallel" ["Transformer"; "Pipeline"]
  ; SImportFrom 76 "mlens.utils.dummy" ["Scale"]
  ; SImportFrom 77 "sklearn.base" ["BaseEstimator"; "TransformerMixin"]
  ; SDef 80 "error_scorer" ["p"; "y"]
      [ SReturn 81 (call (np "abs") [EBinOp "-" (EName "p") (EName "y")]) ]
  ; SClass 84 "Error" ["BaseEstimator"; "TransformerMixin"]
      [ SDocstring 86
      ; SDef 88 "__init__" ["self"; "scorer"]
          [ SAssign 89 (EAttr (EName "self") "scorer") (EName "scorer") ]
      ; SDef 91 "fit" ["self"; "X"; "y"]
          [ SReturn 92 (EName "self") ]
      ; SDef 94 "transform" ["self"; "X"; "y"]
          [ SReturn 95
              (ETuple [ call (meth "self" "scorer") [EName "X"; EName "y"]
                      ; EName "y" ]) ] ]
  ; SAssign 103 (EName "tasks") (EList [])
  ; SFor 104 "i" (call (EName "range") [EInt 3])
      [ SIf 105 (ECompare "!=" (EName "i") (EInt 0))
          [ SAssign 106 (EName "pipeline")
              (callk (EName "Pipeline")
                 [EList [ETuple [EStr "err"; call (EName "Error") [EName "error_scorer"]]]]
                 [("return_y", ETrue)])
          ; SAssign 107 (EName "transformer")
              (callk (EName "Transformer") []
                 [ ("estimator", EName "pipeline")
                 ; ("indexer", EName "indexer")
                 ; ("name", fmt_i_plus_1 "sc-%i") ])
          ; SExpr 112 (call (meth "tasks" "append") [EName "transformer"]) ]
      ; SAssign 114 (EName "learner")
          (Learner_call
             [ ("estimator", call (EName "OLS") [])
             ; ("preprocess",
                EIfExp (ECompare "!=" (EName "i") (EInt 0)) (fmt_i_plus_1 "sc-%i") ENone)
             ; ("indexer", EName "indexer")
             ; ("name", fmt_i_plus_1 "ols-%i") ])
      ; SExpr 120 (call (meth "tasks" "append") [EName "learner"]) ]
  ; SAssign 129 (EName "out")
      (callk (meth "manager" "stack")
         [EName "tasks"; EStr "fit"; EName "X"; EName "y"]
         [("return_preds", ETrue); ("split", EFalse)])
  ; print_ 132 [EName "out"]
  ; SAssign 153 (EName "out")
      (callk (meth "manager" "initialize")
         [EStr "fit"; EName "X"; EName "y"; ENone]
         [ ("return_preds", EList [EStr "ols-1"; EStr "ols-2"])
         ; ("stack", ETrue); ("split", EFalse) ])
  ; SAssign 169 (EName "out")
      (call (meth "manager" "process") [EName "tasks"; EName "out"])
  ; print_ 170 [EName "out"]
  ; SExpr 189 (call (meth "manager" "clear") [])
  ; SAssign 203 (EName "learner")
      (Learner_call [ ("estimator", call (EName "OLS") [])
                    ; ("indexer", EName "indexer") ])
  ; SWith 205 (call (EName "ParallelProcessing") []) "mananger"
      [ SExpr 206
          (callk (meth "manager" "stack")
             [EName "learner"; EStr "fit"; EName "X"; EName "y"]
             [("split", EFalse)])
      ; SAssign 207 (EName "out")
          (callk (meth "manager" "stack")
             [EName "learner"; EStr "predict"; EName "X"]
             [("split", EFalse)]) ]
  ].

(** learner.setup(job.predict_in, job.targets, job.job), for any receiver. *)
Definition setup_from_job (recv : string) : expr :=
  call (meth recv "setup")
    [EAttr (EName "job") "predict_in"; EAttr (EName "job") "targets"
    ; EAttr (EName "job") "job"].

(** The three print statements that close the loop bodies of learner.py. *)
Definition print_output (l : nat) (what : expr) : list stmt :=
  [ print_ l [EStr "Output:"]; print_ (l + 1) [what]; print_ (l + 2) [] ].

Definition job_args : expr := call (meth "job" "args") [].

(** *** src/info/source/tutorials_source/learner.py *)
Definition learner_py : list stmt :=
  [ SDocstring 2
  ; SImportFrom 42 "mlens.utils.dummy" ["OLS"]
  ; SImportFrom 43 "mlens.parallel" ["Learner"; "Job"]
  ; SImportFrom 44 "mlens.index" ["FoldIndex"]
  ; SAssign 47 (EName "indexer") (callk (EName "FoldIndex") [] [("folds", EInt 2)])
  ; SAssign 48 (EName "learner")
      (Learner_call [ ("estimator", call (EName "OLS") [])
                    ; ("indexer", EName "indexer")
                    ; ("name", EStr "ols") ])
  ; SImport 65 [("os", None); ("tempfile", None)]
  ; SImport 66 [("numpy", Some "np")]
  ; SAssign 68 (EName "X") X_rhs
  ; SAssign 69 (EName "y") (call (np_random "rand") [EInt 10])
  ; SAssign 72 (EName "path") (EList [])
  ; SExpr 75 (call (meth "learner" "setup") [EName "X"; EName "y"; EStr "fit"])
  ; SFor 78 "sub_learner" (call (meth "learner" "gen_fit") [EName "X"; EName "y"])
      [ SExpr 79 (call (meth "sub_learner" "fit") [EName "path"]) ]
  ; print_ 81 [EBinOp "%" (EStr "Cached items:\n%r") (EName "path")]
  ; SExpr 89 (call (meth "learner" "collect") [EName "path"])
  ; SAssign 112 (EName "path") (EList [])
  ; SAssign 113 (EName "P") (zeros_like_y 2)
  ; SExpr 114
      (callk (meth "learner" "setup") [EName "X"; EName "y"; EStr "transform"]
         [("n_left_concats", EInt 1)])
  ; SFor 115 "sub_learner"
      (call (meth "learner" "gen_transform") [EName "X"; EName "P"])
      (SExpr 116 (call (meth "sub_learner" "transform") [EName "path"])
       :: print_output 117 (EName "P"))
  ; SAssign 133 (EName "job")
      (callk (EName "Job") []
         [ ("job", EStr "predict"); ("stack", EFalse); ("split", ETrue)
         ; ("dir", EDict []); ("targets", EName "y"); ("predict_in", EName "X")
         ; ("predict_out", zeros_like_y 1) ])
  ; SExpr 143 (setup_from_job "learner")
  ; SFor 144 "sub_learner" (call (EName "learner") [job_args; EStr "main"])
      (SExpr 145 (call (EName "sub_learner") [])
       :: print_output 146 (EAttr (EName "job") "predict_out"))
  ; print_ 155 [EStr "Params before:"]
  ; print_ 156 [call (meth "learner" "get_params") []]
  ; SExpr 158
      (callk (meth "learner" "set_params") []
         [("estimator__offset", EInt 1); ("indexer__folds", EInt 3)])
  ; print_ 160 [EStr "Params after:"]
  ; print_ 161 [call (meth "learner" "get_params") []]
  ; SImportFrom 181 "mlens.index" ["SubsetIndex"]
  ; SDef 183 "mse" ["y"; "p"]
      [ SReturn 183
          (call (np "mean")
             [EBinOp "**" (EBinOp "-" (EName "y") (EName "p")) (EInt 2)]) ]
  ; SAssign 185 (EName "indexer")
      (callk (EName "SubsetIndex") []
         [("partitions", EInt 2); ("folds", EInt 2); ("X", EName "X")])
  ; SAssign 186 (EName "learner")
      (Learner_call [ ("estimator", call (EName "OLS") [])
                    ; ("indexer", EName "indexer")
                    ; ("name", EStr "subsemble-ols")
                    ; ("scorer", EName "mse")
                    ; ("verbose", ETrue) ])
  ; SAssign 192 (EAttr (EName "job") "job") (EStr "fit")
  ; SAssign 193 (EAttr (EName "job") "predict_out") (zeros_like_y 2)
  ; SExpr 195 (setup_from_job "learner")
  ; SFor 196 "sub_learner" (call (EName "learner") [job_args; EStr "main"])
      (SExpr 197 (call (meth "sub_learner" "fit") [])
       :: print_output 198 (EAttr (EName "job") "predict_out"))
  ; SExpr 202 (call (meth "learner" "collect") [])
  ; print_ 215 [EBinOp "%" (EStr "Data:\n%s") (EAttr (EName "learner") "data")]
  ; SImportFrom 246 "mlens.utils.dummy" ["Scale"]
  ; SImportFrom 247 "mlens.parallel" ["Transformer"; "Pipeline"]
  ; SAssign 249 (EName "pipeline")
      (callk (EName "Pipeline")
         [EList [ETuple [EStr "trans"; call (EName "Scale") []]]]
         [("return_y", ETrue)])
  ; SAssign 251 (EName "transformer")
      (callk (EName "Transformer") []
         [ ("estimator", EName "pipeline"); ("indexer", EName "indexer")
         ; ("name", EStr "sc"); ("verbose", ETrue) ])
  ; SAssign 260 (EName "learner")
      (Learner_call [ ("estimator", call (EName "OLS") [])
                    ; ("preprocess", EStr "sc")
                    ; ("indexer", EName "indexer")
                    ; ("scorer", EName "mse")
                    ; ("verbose", ETrue) ])
  ; SAssign 273 (EAttr (EName "job") "predict_out") (zeros_like_y 2)
  ; SExpr 275 (setup_from_job "transformer")
  ; SExpr 276 (setup_from_job "learner")
  ; SAssign 279 (EAttr (EName "job") "split") EFalse
  ; SFor 280 "subtransformer"
      (call (EName "transformer") [job_args; EStr "auxiliary"])
      [ SExpr 281 (call (EName "subtransformer") []) ]
  ; SFor 283 "sublearner" (call (EName "learner") [job_args; EStr "main"])
      [ SExpr 284 (call (EName "sublearner") []) ]
  ; SExpr 286 (call (meth "transformer" "collect") [])
  ; SExpr 287 (call (meth "learner" "collect") [])
  ; print_ 292 [EStr "Cache:"]
  ; SFor 293 "item"
      (ESubscript (EAttr (EName "job") "dir")
         (EBinOp "%" (EStr "task_%i") (EAttr (EName "job") "_n_dir")))
      [ print_ 294
          [call (EAttr (EStr "{:20}{}") "format") [EStarred (EName "item")]] ]
  ; print_ 299 [EBinOp "%" (EStr "Data:\n%s") (EAttr (EName "learner") "data")]
  ; SImportFrom 313 "multiprocessing.dummy" ["Pool"]
  ; SDef 315 "run" ["est"] [ SExpr 315 (call (EName "est") []) ]
  ; SAssign 317 (EName "args") job_args
  ; SAssign 318 (EAttr (EName "job") "predict_out") (zeros_like_y 2)
  ; SAssign 319 (EAttr (EName "job") "job") (EStr "predict")
  ; SExpr 320
      (call (EAttr (call (EName "Pool") [EInt 4]) "map")
         [ EName "run"
         ; call (EName "list") [call (EName "learner") [EName "args"; EStr "main"]] ])
  ; SImportFrom 330 "mlens.parallel" ["run"]
  ; print_ 332
      [call (EName "run") [EName "transformer"; EStr "predict"; EName "X"]]
  ].

(** The supplied files, by path. *)
Definition supplied_files : list (string * list stmt) :=
  [ ("info/_downloads/layer.py", layer_py)
  ; ("info/_downloads/parallel.py", parallel_py)
  ; ("info/source/tutorials_source/layer.py", layer_source_py)
  ; ("info/source/tutorials_source/learner.py", learner_py)
  ].

(** *** Walking the syntax *)

(** Every expression that occurs inside [e], [e] itself first, in source
    order. *)
Fixpoint subexprs (e : expr) : list expr :=
  e :: match e with
       | EName _ | EStr _ | EInt _ | EFloat _ | ENone | ETrue | EFalse => []
       | EAttr e' _ => subexprs e'
       | ECall f args kwargs =>
           subexprs f ++ flat_map subexprs args
                      ++ flat_map (λ '(_, v), subexprs v) kwargs
       | EList es | ETuple es => flat_map subexprs es
       | EDict kvs => flat_map (λ '(k, v), subexprs k ++ subexprs v) kvs
       | EBinOp _ l r | ECompare _ l r | ESubscript l r => subexprs l ++ subexprs r
       | EIfExp c t e' => subexprs c ++ subexprs t ++ subexprs e'
       | EStarred e' => subexprs e'
       end.

(** A statement and every statement nested in its blocks. *)
Fixpoint flatten (s : stmt) : list stmt :=
  s :: match s with
       | SFor _ _ _ body | SIf _ _ body | SWith _ _ _ body
       | SDef _ _ _ body | SClass _ _ _ body => flat_map flatten body
       | STry _ body _ _ handler => flat_map flatten body ++ flat_map flatten handler
       | _ => []
       end.

Definition all_stmts (file : list stmt) : list stmt := flat_map flatten file.

(** The top-level statements that start on line [l]. *)
Definition stmts_at (l : nat) (file : list stmt) : list stmt :=
  filter (λ s, line_of s = l) file.

(** The expressions a statement evaluates itself (its blocks apart).  The
    target of an assignment is evaluated only below its last attribute or
    subscript: [x = e] reads nothing on the left, [o.a = e] reads [o]. *)
Definition target_reads (t : expr) : list expr :=
  match t with
  | EName _ => []
  | EAttr o _ => [o]
  | ESubscript o i => [o; i]
  | _ => [t]
  end.

Definition stmt_exprs (s : stmt) : list expr :=
  match s with
  | SAssign _ t v => v :: target_reads t
  | SExpr _ e | SReturn _ e | SFor _ _ e _ | SIf _ e _ | SWith _ e _ _ => [e]
  | SClass _ _ bases _ => EName <$> bases
  | STry _ _ exc _ _ => [EName exc]
  | _ => []
  end.

(** The lines at which the name [x] is read. *)
Definition reads_name (x : string) (e : expr) : bool :=
  existsb (λ sub, match sub with EName y => bool_decide (x = y) | _ => false end)
          (subexprs e).

Definition load_lines (x : string) (file : list stmt) : list nat :=
  line_of <$> filter (λ s, existsb (reads_name x) (stmt_exprs s) = true)
                     (all_stmts file).

(** *** Bindings *)

(** How a statement binds a name. *)
Inductive binding : Type :=
| ByImportFrom (module : string)
| ByImport (module : string)
| ByAssign (value : expr)
| ByFor (iter : expr)
| ByWith (ctx : expr)
| ByExcept
| ByDef
| ByClass.

Definition binds (s : stmt) : list (string * binding) :=
  match s with
  | SImportFrom _ m names => (λ n, (n, ByImportFrom m)) <$> names
  | SImport _ names => (λ '(m, a), (default m a, ByImport m)) <$> names
  | SAssign _ (EName x) v => [(x, ByAssign v)]
  | SFor _ x it _ => [(x, ByFor it)]
  | SWith _ ctx x _ => [(x, ByWith ctx)]
  | STry _ _ _ x _ => [(x, ByExcept)]
  | SDef _ x _ _ => [(x, ByDef)]
  | SClass _ x _ _ => [(x, ByClass)]
  | _ => []
  end.

(** Every binding of [x] in a file, with the line of its statement. *)
Definition bindings_of (x : string) (file : list stmt) : list (nat * binding) :=
  flat_map (λ s, (λ '(_, b), (line_of s, b)) <$>
                 filter (λ '(y, _), x = y) (binds s))
           (all_stmts file).

(** The binding of [x] in force when line [l] runs.  For a name whose
    bindings all lie at the top level of the script, outside loops and
    function bodies, that is the last binding above the line. *)
Definition binding_in_force (x : string) (l : nat) (file : list stmt)
    : option (nat * binding) :=
  last (filter (λ b, (b.1 < l)%nat) (bindings_of x file)).

(** The functions and classes a file defines, methods included. *)
Definition defined_names (file : list stmt) : list string :=
  flat_map (λ s, match s with
                 | SDef _ x _ _ | SClass _ x _ _ => [x]
                 | _ => []
                 end)
           (all_stmts file).

(** A module of the [mlens] package: [mlens] itself or [mlens.<sub>]. *)
Definition is_mlens_module (m : string) : bool :=
  bool_decide (m = "mlens") || String.prefix "mlens." m.

Definition imported_from_mlens (b : binding) : bool :=
  match b with ByImportFrom m => is_mlens_module m | _ => false end.

(** The types the scripts build on: the classes of [mlens.parallel] and
    the indexers of [mlens.index]. *)
Definition core_types : list string :=
  [ "Layer"; "Group"; "Learner"; "Transformer"; "ParallelProcessing"
  ; "Job"; "Pipeline"; "FoldIndex"; "BlendIndex"; "SubsetIndex" ].

(** *** Calls that reach the library *)

(** A call site: the line, the receiver when the callee is a method
    ([manager] in [manager.map(...)]; ["_"] when the receiver is not a
    plain name) and the name called. *)
Record call_site : Type := CallSite {
  cs_line : nat;
  cs_recv : option string;
  cs_op : string
}.

#[global] Instance call_site_eq_dec : EqDecision call_site.
Proof. solve_decision. Defined.

(** Whether an expression denotes something of the library, given the
    names [lib] currently bound to library things: a name in [lib], a
    call of such a name, or a call of a method of such a value. *)
Fixpoint lib_valued (lib : list string) (e : expr) : bool :=
  match e with
  | EName x => bool_decide (x ∈ lib)
  | ECall f _ _ =>
      match f with
      | EAttr recv _ => lib_valued lib recv
      | _ => lib_valued lib f
      end
  | _ => false
  end.

Definition callee_site (l : nat) (f : expr) : call_site :=
  match f with
  | EName x => CallSite l None x
  | EAttr (EName r) m => CallSite l (Some r) m
  | EAttr _ m => CallSite l (Some "_") m
  | _ => CallSite l None "_"
  end.

(** The library calls made while evaluating [e] at line [l]. *)
Definition lib_calls_expr (lib : list string) (l : nat) (e : expr) : list call_site :=
  flat_map (λ sub, match sub with
                   | ECall f _ _ =>
                       if lib_valued lib sub then [callee_site l f] else []
                   | _ => []
                   end)
           (subexprs e).

Record scan_state : Type := ScanState {
  lib_names : list string;
  calls : list call_site
}.

Definition unbind (xs : list string) (lib : list string) : list string :=
  filter (λ x, x ∉ xs) lib.

Definition rebind (x : string) (is_lib : bool) (lib : list string) : list string :=
  if is_lib then x :: unbind [x] lib else unbind [x] lib.

Definition record (l : nat) (es : list expr) (st : scan_state) : scan_state :=
  ScanState (lib_names st)
            (calls st ++ flat_map (lib_calls_expr (lib_names st) l) es).

Definition with_lib (f : list string → list string) (st : scan_state) : scan_state :=
  ScanState (f (lib_names st)) (calls st).

(** One pass over a statement list in execution order.  A name becomes a
    library name when it is imported from [mlens], assigned a library
    value, bound by a [for] over one or by a [with] on one; any other
    binding of the name ends that.  The body of a [def] or [class] is
    scanned with its parameters unbound and leaves the names of the
    enclosing scope as they were. *)
Fixpoint scan (s : stmt) (st : scan_state) : scan_state :=
  match s with
  | SDocstring _ => st
  | SImportFrom _ m names =>
      if is_mlens_module m
      then with_lib (λ lib, names ++ unbind names lib) st
      else with_lib (unbind names) st
  | SImport _ names =>
      with_lib (unbind ((λ '(m, a), default m a) <$> names)) st
  | SAssign l t v =>
      let st := record l (v :: target_reads t) st in
      match t with
      | EName x => with_lib (rebind x (lib_valued (lib_names st) v)) st
      | _ => st
      end
  | SExpr l e | SReturn l e => record l [e] st
  | SFor l x it body =>
      let st := record l [it] st in
      let st := with_lib (rebind x (lib_valued (lib_names st) it)) st in
      foldl (λ st s', scan s' st) st body
  | SIf l c body =>
      foldl (λ st s', scan s' st) (record l [c] st) body
  | STry _ body _ x handler =>
      let st := foldl (λ st s', scan s' st) st body in
      foldl (λ st s', scan s' st) (with_lib (unbind [x]) st) handler
  | SWith l ctx x body =>
      let st := record l [ctx] st in
      let st := with_lib (rebind x (lib_valued (lib_names st) ctx)) st in
      foldl (λ st s', scan s' st) st body
  | SDef _ x params body =>
      let outer := unbind [x] (lib_names st) in
      let st := foldl (λ st s', scan s' st)
                      (ScanState (unbind params outer) (calls st)) body in
      ScanState outer (calls st)
  | SClass _ x _ body =>
      let outer := unbind [x] (lib_names st) in
      let st := foldl (λ st s', scan s' st) (ScanState outer (calls st)) body in
      ScanState outer (calls st)
  end.

Definition library_calls (file : list stmt) : list call_site :=
  calls (foldl (λ st s, scan s st) (ScanState [] []) file).

(** The scripts that run code: the three tutorials. *)
Definition scripts : list (list stmt) := [layer_py; parallel_py; learner_py].

Definition all_library_calls : list call_site := flat_map library_calls scripts.

(** The call surface as the documentation lists it: a function, a method
    of a named receiver, or a method whatever its receiver. *)
Inductive surface_entry : Type :=
| Function (name : string)
| Method (recv name : string)
| AnyMethod (name : string).

Definition call_surface : list surface_entry :=
  [ Function "run"
  ; Method "manager" "map"; Method "manager" "stack"
  ; Method "manager" "initialize"; Method "manager" "process"
  ; Method "manager" "clear"
  ; Method "learner" "setup"; Method "learner" "collect"
  ; AnyMethod "get_params"; AnyMethod "set_params" ].

Definition matches (p : surface_entry) (c : call_site) : bool :=
  match p, cs_recv c with
  | Function f, None => bool_decide (f = cs_op c)
  | Method r m, Some r' => bool_decide (r = r') && bool_decide (m = cs_op c)
  | AnyMethod m, Some _ => bool_decide (m = cs_op c)
  | _, _ => false
  end.

Definition in_surface (c : call_site) : bool := existsb (λ p, matches p c) call_surface.

(** The claim of a closed call surface: every library call of the
    scripts is one of the listed operations. *)
Definition call_surface_closed : Prop :=
  ∀ c, c ∈ all_library_calls → in_surface c = true.

(** The callee as written: [recv.op] or [op]. *)
Definition callee_text (c : call_site) : string :=
  match cs_recv c with
  | Some r => String.append r (String.append "." (cs_op c))
  | None => cs_op c
  end.

End Source.

(** ** numpy, as far as the local helpers use it *)

Module Numpy.

Section Arrays.
(** The scalar type of the arrays (a float in the scripts) with its
    subtraction and absolute value. *)
Context {F : Type} (fsub : F → F → F) (fabs : F → F).

(** A one-dimensional array. *)
Definition ndarray : Type := list F.

Definition shape_text (a : ndarray) : string :=
  String.append "(" (String.append (pretty (length a)) ",)").

(** [p - y]: elementwise on equal shapes; an operand of length one is
    stretched along the other; any other pair of shapes raises
    ValueError. *)
Definition subtract (p y : ndarray) : result ndarray :=
  if decide (length p = length y) then Ok (zip_with fsub p y)
  else match p, y with
       | [p0], _ => Ok (fsub p0 <$> y)
       | _, [y0] => Ok ((λ x, fsub x y0) <$> p)
       | _, _ =>
           Raise (PyException "ValueError"
                    (String.append
                       "operands could not be broadcast together with shapes "
                       (String.append (shape_text p)
                          (String.append " " (String.append (shape_text y) " ")))))
       end.

(** [np.abs(a)] *)
Definition abs (a : ndarray) : ndarray := fabs <$> a.
End Arrays.

End Numpy.

(** ** parallel.py, lines 80 to 95: [error_scorer] and [Error] *)

Module ErrorTransformer.

Section Scorer.
Context {F : Type} (fsub : F → F → F) (fabs : F → F).

(** def error_scorer(p, y): return np.abs(p - y) *)
Definition error_scorer (p y : Numpy.ndarray) : result (@Numpy.ndarray F) :=
  d ← Numpy.subtract fsub p y; mret (Numpy.abs fabs d).
End Scorer.

Section Error.
(** [X], [y] and what the scorer returns are whatever the caller
    passes; a scorer, like any Python callable, may raise. *)
Context {A B C : Type}.

(** An instance holds one attribute, set by the constructor. *)
Record Error : Type := { scorer : A → B → result C }.

(** def __init__(self, scorer): self.scorer = scorer *)
Definition __init__ (scorer : A → B → result C) : Error := {| scorer := scorer |}.

(** def fit(self, X, y): return self *)
Definition fit (self : Error) (X : A) (y : B) : Error := self.

(** def transform(self, X, y): return self.scorer(X, y), y *)
Definition transform (self : Error) (X : A) (y : B) : result (C * B) :=
  s ← scorer self X y; mret (s, y).
End Error.
Arguments Error : clear implicits.

End ErrorTransformer.

(** ** The random-number preamble of each script *)

Module Seeding.
Import Source.

Definition is_np_random (a : string) (f : expr) : bool :=
  match f with
  | EAttr (EAttr (EName m) r) a' =>
      bool_decide (m = "np") && bool_decide (r = "random") && bool_decide (a' = a)
  | _ => false
  end.

(** Whether some call inside the statement is [np.random.<a>(...)]. *)
Definition calls_np_random (a : string) (s : stmt) : bool :=
  existsb (λ e, existsb (λ sub, match sub with
                                | ECall f _ _ => is_np_random a f
                                | _ => false
                                end) (subexprs e))
          (stmt_exprs s).

(** The lines that seed the generator, and those that draw from it. *)
Definition seed_lines (file : list stmt) : list nat :=
  line_of <$> filter (λ s, calls_np_random "seed" s = true) (all_stmts file).

Definition rand_lines (file : list stmt) : list nat :=
  line_of <$> filter (λ s, calls_np_random "rand" s = true) (all_stmts file).

(** [np.random.seed(n)] takes an integer from 0 to 2**32 - 1 and raises
    ValueError on any other. *)
Definition valid_seed (n : Z) : bool := (0 <=? n) && (n <? 2 ^ 32).

(** The array constructors of numpy that the scripts call. *)
Definition np_constructors : list string := ["arange"; "zeros"].

Definition is_np_constructor (np_numpy : bool) (f : expr) : bool :=
  match f with
  | EAttr (EName m) c =>
      np_numpy && bool_decide (m = "np") && bool_decide (c ∈ np_constructors)
  | _ => false
  end.

(** An expression whose evaluation cannot reach the generator: a
    literal or a name; a list or tuple of such; [np.arange] or
    [np.zeros] of such, reshaped or not, while [np] is numpy.  An
    attribute read, an operator, a subscript or any other call may run
    code the script does not show. *)
Fixpoint generator_free (np_numpy : bool) (e : expr) : bool :=
  match e with
  | EName _ | EStr _ | EInt _ | EFloat _ | ENone | ETrue | EFalse => true
  | EList es | ETuple es => forallb (generator_free np_numpy) es
  | ECall f args [] =>
      forallb (generator_free np_numpy) args
      && match f with
         | EAttr (ECall c cargs []) r =>
             bool_decide (r = "reshape") && is_np_constructor np_numpy c
             && forallb (generator_free np_numpy) cargs
         | _ => is_np_constructor np_numpy f
         end
  | _ => false
  end.

(** What a top-level statement is to the generator. *)
Inductive action : Type :=
| Seeds (n : Z)
| Draws (x : string) (n : Z)
| Quiet
| ImportsNumpy
| Unknown.

(** [np_numpy] tells whether the name [np] is bound to numpy.  The
    statements the model knows are [np.random.seed(<integer>)],
    [x = np.random.rand(<integer>)], [import numpy as np], a docstring,
    and an expression or assignment that is generator free.  Every
    other statement (an import, a call of the library, a print, a
    statement with a block, a seed or a draw written any other way) is
    unknown. *)
Definition classify (np_numpy : bool) (s : stmt) : action :=
  match s with
  | SDocstring _ => Quiet
  | SImport _ names =>
      if bool_decide (names = [("numpy", Some "np")]) then ImportsNumpy else Unknown
  | SExpr _ e =>
      match e with
      | ECall f [EInt n] [] =>
          if np_numpy && is_np_random "seed" f then Seeds n
          else if generator_free np_numpy e then Quiet else Unknown
      | _ => if generator_free np_numpy e then Quiet else Unknown
      end
  | SAssign _ (EName x) v =>
      if bool_decide (x = "np") then Unknown
      else match v with
           | ECall f [EInt n] [] =>
               if np_numpy && is_np_random "rand" f then Draws x n
               else if generator_free np_numpy v then Quiet else Unknown
           | _ => if generator_free np_numpy v then Quiet else Unknown
           end
  | _ => Unknown
  end.

(** Whether a statement, or one inside it, binds the name [np]. *)
Definition binds_np (s : stmt) : bool :=
  existsb (λ s', existsb (λ b, bool_decide (b.1 = "np")) (binds s')) (flatten s).

(** A statement the generator's state passes through in a way the
    script fixes: a seed, a draw or a generator-free statement, with
    [np] bound to numpy. *)
Definition fixed_by_script (s : stmt) : bool :=
  match classify true s with
  | Seeds _ | Draws _ _ | Quiet => true
  | ImportsNumpy | Unknown => false
  end.

(** A statement that draws no array whether or not [np] is numpy. *)
Definition draws_nothing (s : stmt) : bool :=
  match classify true s, classify false s with
  | Draws _ _, _ | _, Draws _ _ => false
  | _, _ => true
  end.

(** The top-level statements above line [l]. *)
Definition before (l : nat) (file : list stmt) : list stmt :=
  filter (λ s, (line_of s < l)%nat) file.

Section Generator.
(** numpy's global generator: its state, what [np.random.seed(n)]
    makes of it (a state that depends on [n] alone) and what
    [np.random.rand(n)] draws from it.  A run also has a [world]: all
    that the script does not fix, such as the entropy numpy seeds
    itself with and the code of the library.  [other w l g] is what the
    unknown statement of line [l] makes of the generator state [g] in
    the world [w]: any state at all, or none when the statement raises
    and the script stops there. *)
Context {rng ndarray world : Type}.
Variable seed : Z → rng.
Variable rand : Z → rng → ndarray * rng.
Variable other : world → nat → rng → option rng.

(** A run so far: the generator, the arrays the draw statements have
    drawn (with the line and the name assigned), whether [np] is bound
    to numpy and whether an exception has stopped the script. *)
Record run_state : Type := RunState {
  generator : rng;
  draws : list (nat * string * ndarray);
  np_numpy : bool;
  stopped : bool
}.

Definition stop (st : run_state) : run_state :=
  RunState (generator st) (draws st) (np_numpy st) true.

(** One top-level statement. *)
Definition step (w : world) (st : run_state) (s : stmt) : run_state :=
  if stopped st then st
  else match classify (np_numpy st) s with
       | Seeds n =>
           if valid_seed n
           then RunState (seed n) (draws st) (np_numpy st) false
           else stop st
       | Draws x n =>
           if (0 <=? n)
           then let '(a, g) := rand n (generator st) in
                RunState g (draws st ++ [(line_of s, x, a)]) (np_numpy st) false
           else stop st
       | Quiet => st
       | ImportsNumpy =>
           match other w (line_of s) (generator st) with
           | Some g => RunState g (draws st) true false
           | None => stop st
           end
       | Unknown =>
           match other w (line_of s) (generator st) with
           | Some g => RunState g (draws st) (np_numpy st && negb (binds_np s)) false
           | None => stop st
           end
       end.

(** A run of a script in the world [w], from the state [g0] the
    generator is in when the script starts. *)
Definition run_script (file : list stmt) (w : world) (g0 : rng) : run_state :=
  foldl (step w) (RunState g0 [] false false) file.

(** The targets of a run: the array last drawn into [y], if the run got
    to draw one. *)
Definition targets (file : list stmt) (w : world) (g0 : rng) : option ndarray :=
  snd <$> last (filter (λ d, d.1.2 = "y") (draws (run_script file w g0))).

(** The state of the generator when line [l] is about to run, if the
    run gets there. *)
Definition generator_at (l : nat) (file : list stmt) (w : world) (g0 : rng)
    : option rng :=
  let st := run_script (before l file) w g0 in
  if stopped st then None else Some (generator st).

(** What the unknown statements of the given lines, one after the
    other, make of the generator state [g]. *)
Fixpoint through (w : world) (lines : list nat) (g : rng) : option rng :=
  match lines with
  | [] => Some g
  | l :: lines =>
      match other w l g with
      | Some g' => through w lines g'
      | None => None
      end
  end.

(** The claim that two runs of a script never draw the same targets,
    whatever worlds they run in and whatever states they start from. *)
Definition runs_always_differ (file : list stmt) : Prop :=
  ∀ (w1 w2 : world) (g1 g2 : rng), targets file w1 g1 ≠ targets file w2 g2.
End Generator.

(** The same claim about learner.py in its weakest reading: for some
    generator and some world, in which a run can start at all, two runs
    of learner.py never draw the same targets. *)
Definition unseeded_runs_always_differ : Prop :=
  ∃ (rng ndarray world : Type) (seed : Z → rng) (rand : Z → rng → ndarray * rng)
    (other : world → nat → rng → option rng) (_ : world) (_ : rng),
    runs_always_differ seed rand other learner_py.

End Seeding.

(** ** The library the scripts drive *)

Module Mlens.

Inductive job : Type := Fit | Predict | Transform.

(** The indexers of [mlens.index] that the scripts build. *)
Inductive indexer : Type :=
| FoldIndex (folds : nat)
| BlendIndex (test_size : string)
| SubsetIndex (partitions folds : nat).

(** The estimators of [mlens.utils.dummy]. *)
Inductive estimator : Type :=
| OLS (offset : Z)
| Scale.

(** What [make_group] takes as estimators or as transformers: a list (a
    single estimator is the list of it, [None] the empty list) or a
    dictionary from case names to lists. *)
Inductive pipeline_spec : Type :=
| Plain (l : list estimator)
| Cases (l : list (string * list estimator)).

(** *** Layers and groups (layer.py) *)

(** Modelled from the spec: the classes [Group] and [Layer] and the
    functions [make_group] and [run] of [mlens.parallel], which the
    scripts import and whose code is not among the supplied files.  The
    tutorial says: a layer is a handle that runs the groups attached to
    it; a group wraps an indexer, transformers and estimators; a layer
    can be built empty and groups pushed onto its stack; after a push,
    fit must be called before the layer can predict, and calling predict
    on a layer after pushing a new, unfitted group raises an error. *)
Record Group : Type := {
  g_indexer : indexer;
  g_estimators : pipeline_spec;
  g_transformers : pipeline_spec;
  g_scorer : option string;
  g_fitted : bool
}.

Definition make_group (idx : indexer) (estimators transformers : pipeline_spec)
    (scorer : option string) : Group :=
  {| g_indexer := idx; g_estimators := estimators;
     g_transformers := transformers; g_scorer := scorer; g_fitted := false |}.

Record Layer : Type := { stack : list Group }.

(** Layer(stack=...): no stack, one group or a list of groups. *)
Definition Layer__init__ (stack : list Group) : Layer := {| stack := stack |}.

Definition push (self : Layer) (g : Group) : Layer :=
  {| stack := stack self ++ [g] |}.

Definition fit_group (g : Group) : Group :=
  {| g_indexer := g_indexer g; g_estimators := g_estimators g;
     g_transformers := g_transformers g; g_scorer := g_scorer g;
     g_fitted := true |}.

Definition fit_layer (self : Layer) : Layer :=
  {| stack := fit_group <$> stack self |}.

Definition layer_fitted (self : Layer) : bool := forallb g_fitted (stack self).

Section Layers.
(** The arrays and the numbers in them are the library's business:
    what a fitted layer predicts, what it collects while fitting and
    the text of its error are left open. *)
Context {ndarray data : Type}.
Variable predictions : Layer → job → ndarray → ndarray.
Variable collected : Layer → data.
Variable not_fitted_msg : string.

(** run(caller, job, X, y, return_preds=...): the outcome and the layer
    as the call leaves it.  Fitting fits every group on the stack;
    the other jobs need every group fitted. *)
Definition run (caller : Layer) (j : job) (X : ndarray) (y : option ndarray)
    (return_preds : bool) : result (option ndarray * Layer) :=
  match j with
  | Fit =>
      let fitted := fit_layer caller in
      Ok (if return_preds then Some (predictions fitted Fit X) else None, fitted)
  | _ =>
      if layer_fitted caller
      then Ok (Some (predictions caller j X), caller)
      else Raise (PyException "NotFittedError" not_fitted_msg)
  end.

(** What a script writes to standard output, one entry per [print]. *)
Inductive printed : Type :=
| Text (s : string)
| Value (a : option ndarray)
| Data (d : data).

(** The text lines among what a script printed. *)
Definition text_lines (out : list printed) : list string :=
  omap (λ p, match p with Text s => Some s | _ => None end) out.

(** A script threads its output and may stop on an exception. *)
Definition script (A : Type) : Type := list printed → result A * list printed.

Definition sret {A} (a : A) : script A := λ out, (Ok a, out).
Definition sbind {A B} (m : script A) (k : A → script B) : script B :=
  λ out, match m out with
         | (Ok a, out') => k a out'
         | (Raise e, out') => (Raise e, out')
         end.
Definition lift {A} (r : result A) : script A := λ out, (r, out).
Definition print (p : printed) : script unit := λ out, (Ok tt, out ++ [p]).

(** try: body / except Exception as exc: handler *)
Definition try_except_Exception {A} (body : script A) (handler : exn → script A)
    : script A :=
  λ out, match body out with
         | (Raise (PyException cls msg), out') => handler (PyException cls msg) out'
         | other => other
         end.

#[local] Instance script_ret : MRet script := @sret.
#[local] Instance script_bind : MBind script := λ A B k m, sbind m k.

(** print(run(layer, 'fit', X, y, return_preds=True)) *)
Definition print_run_fit (layer : Layer) (X y : ndarray) : script unit :=
  r ← lift (run layer Fit X (Some y) true); print (Value r.1).

(** layer.py from line 47 on, with the arrays [X] and [y] of lines 60
    and 61 as parameters. *)
Definition layer_py (X y : ndarray) : script unit :=
  let indexer := FoldIndex 2 in
  let group := make_group indexer (Plain [OLS 1; OLS 2]) (Plain []) None in
  let layer := Layer__init__ [group] in
  print_run_fit layer X y;;
  let group := make_group indexer (Plain [OLS 1; OLS 2]) (Plain [Scale]) None in
  let layer := Layer__init__ [group] in
  print_run_fit layer X y;;
  let group :=
    make_group indexer
      (Cases [("case-1", [OLS 1]); ("case-2", [OLS 2])])
      (Cases [("case-1", [Scale]); ("case-2", [])]) None in
  let layer := Layer__init__ [group] in
  print_run_fit layer X y;;
  let groups :=
    [ make_group indexer (Plain [OLS 1]) (Plain [Scale]) None
    ; make_group indexer (Plain [OLS 2]) (Plain []) None ] in
  let layer := Layer__init__ groups in
  print_run_fit layer X y;;
  let groups :=
    [ make_group (FoldIndex 2) (Plain [OLS 1]) (Plain [Scale]) None
    ; make_group (FoldIndex 4) (Plain [OLS 2]) (Plain []) None ] in
  let layer := Layer__init__ groups in
  print_run_fit layer X y;;
  let groups :=
    [ make_group (FoldIndex 2) (Plain [OLS 1]) (Plain []) None
    ; make_group (BlendIndex "0.5") (Plain [OLS 1]) (Plain []) None ] in
  let layer := Layer__init__ groups in
  print_run_fit layer X y;;
  (* line 172 *)
  let layer := Layer__init__ [] in
  let group := make_group (FoldIndex 4) (Plain [OLS 0]) (Plain []) None in
  let layer := push layer group in
  r ← lift (run layer Fit X (Some y) false);
  let layer := r.2 in
  let group := make_group (FoldIndex 2) (Plain [OLS 1]) (Plain []) None in
  let layer := push layer group in
  try_except_Exception
    (lift (run layer Predict X (Some y) false);; mret tt)
    (λ exc, print (Text (String.append "Error: " (exn_message exc))));;
  (* line 198 *)
  let layer := Layer__init__ [] in
  let group1 :=
    make_group indexer
      (Cases [("case-1", [OLS 1]); ("case-2", [OLS 2])])
      (Cases [("case-1", [Scale]); ("case-2", [])]) (Some "rmse") in
  let layer := push layer group1 in
  r ← lift (run layer Fit X (Some y) true);
  let layer := r.2 in
  print (Text "");;
  print (Text "Collected data:");;
  print (Data (collected layer)).
End Layers.

(** *** Learners and their cache (learner.py) *)

(** Modelled from the spec: the class [Learner] of [mlens.parallel] and
    the sub-learners it generates, whose code is not among the supplied
    files.  The tutorial says: a learner wraps an estimator and a
    cross-validation strategy and has a name used for cache referencing;
    [setup] indexes the training set and assigns the output columns,
    starting at [n_left_concats]; the learner creates one sub-learner
    per fold during estimation; fitting puts one copy of the estimator
    in the cache for each fold and one for the full dataset, named
    [name].[col_id].[fold_id]; with a subset indexer there is one
    prediction feature per partition. *)
Record Learner : Type := {
  name : string;
  l_estimator : estimator;
  l_indexer : indexer;
  output_columns : option nat
}.

Definition Learner__init__ (est : estimator) (idx : indexer) (name : string)
    : Learner :=
  {| name := name; l_estimator := est; l_indexer := idx; output_columns := None |}.

(** The data a sub-learner is fitted on. *)
Inductive training_set : Type :=
| FullData
| Fold (k : nat).

Record SubLearner : Type := {
  sl_name : string;
  sl_col : nat;
  sl_fold : nat;
  sl_data : training_set;
  sl_estimator : estimator
}.

(** A cache entry: the key and the fitted estimator under it. *)
Record cached : Type := {
  key : string;
  fitted_on : training_set;
  fitted_estimator : estimator
}.

Definition n_partitions (idx : indexer) : nat :=
  match idx with SubsetIndex p _ => p | _ => 1%nat end.

Definition n_folds (idx : indexer) : nat :=
  match idx with
  | FoldIndex k | SubsetIndex _ k => k
  | BlendIndex _ => 1%nat
  end.

(** [name].[col_id].[fold_id] *)
Definition cache_key (name : string) (col fold : nat) : string :=
  String.append name
    (String.append "." (String.append (pretty col) (String.append "." (pretty fold)))).

(** The entry a sub-learner leaves in the cache. *)
Definition cache_entry (sl : SubLearner) : cached :=
  {| key := cache_key (sl_name sl) (sl_col sl) (sl_fold sl);
     fitted_on := sl_data sl;
     fitted_estimator := sl_estimator sl |}.

Section Learners.
Context {ndarray : Type}.

(** learner.setup(X, y, job, n_left_concats=0) *)
Definition setup (self : Learner) (X y : ndarray) (j : job) (n_left_concats : nat)
    : Learner :=
  {| name := name self; l_estimator := l_estimator self;
     l_indexer := l_indexer self; output_columns := Some n_left_concats |}.

(** The sub-learners of one output column: the one fitted on all the
    data, numbered 0, then one per fold. *)
Definition column_sub_learners (self : Learner) (col : nat) : list SubLearner :=
  {| sl_name := name self; sl_col := col; sl_fold := 0; sl_data := FullData;
     sl_estimator := l_estimator self |}
  :: ((λ k, {| sl_name := name self; sl_col := col; sl_fold := k;
               sl_data := Fold k; sl_estimator := l_estimator self |})
        <$> seq 1 (n_folds (l_indexer self))).

(** learner.gen_fit(X, y): a learner that was not set up has no output
    columns to generate for. *)
Definition gen_fit (self : Learner) (X y : ndarray) : result (list SubLearner) :=
  match output_columns self with
  | None => Raise (PyException "NotFittedError" "learner is not set up")
  | Some c =>
      Ok (flat_map (λ p, column_sub_learners self (c + p))
                   (seq 0 (n_partitions (l_indexer self))))
  end.

(** sub_learner.fit(path), with a list as the cache: the fitted
    estimator is appended under the sub-learner's key. *)
Definition SubLearner_fit (self : SubLearner) (path : list cached) : list cached :=
  path ++ [cache_entry self].

(** learner.py, lines 72 to 79, for a given learner:
    path = []; learner.setup(X, y, 'fit');
    for sub_learner in learner.gen_fit(X, y): sub_learner.fit(path) *)
Definition fit_into_cache (learner : Learner) (X y : ndarray) : result (list cached) :=
  let path := [] in
  let learner := setup learner X y Fit 0 in
  sub_learners ← gen_fit learner X y;
  mret (foldl (λ path sub_learner, SubLearner_fit sub_learner path)
              path sub_learners).

(** The same with the learner of lines 47 to 50. *)
Definition learner_py_cache (X y : ndarray) : result (list cached) :=
  let indexer := FoldIndex 2 in
  let learner := Learner__init__ (OLS 0) indexer "ols" in
  fit_into_cache learner X y.
End Learners.

(** A key has the form [name].[col_id].[fold_id]. *)
Definition key_form (name : string) (k : string) : Prop :=
  ∃ col fold : nat, k = cache_key name col fold.

(** *** The manager and its cache (parallel.py) *)

(** Modelled from the spec: the class [ParallelProcessing] of
    [mlens.parallel], whose code is not among the supplied files.  The
    tutorial says: [map] and [stack] call [initialize] and then
    [process]; [initialize] creates a job that holds the arguments and
    the data handles; [clear] removes any file in the path given to
    [initialize], those not generated by [process] included, and
    destroys the data kept on the instance; used as a context manager,
    the instance cleans up its cache when the context is left. *)

(** The files on disk, each by its directory and its name. *)
Abbreviation filesystem := (gset (string * string)).

Definition files_in (d : string) (fs : filesystem) : filesystem :=
  filter (λ f, f.1 = d) fs.

Definition remove_dir_files (d : string) (fs : filesystem) : filesystem :=
  filter (λ f, f.1 ≠ d) fs.

Section Manager.
Context {ndarray task : Type}.
(** The directory [initialize] makes when it is given no path, the
    files processing a list of tasks writes, and what it returns. *)
Variable tmpdir : string.
Variable generated : list task → list string.
Variable output : list task → ndarray → ndarray.

Record Job : Type := {
  job_name : job;
  dir : string;
  predict_in : ndarray;
  targets : option ndarray
}.

Record ParallelProcessing : Type := {
  backend : string;
  n_jobs : Z;
  current_job : option Job
}.

Definition ParallelProcessing__init__ (backend : string) (n_jobs : Z)
    : ParallelProcessing :=
  {| backend := backend; n_jobs := n_jobs; current_job := None |}.

(** manager.initialize(job, X, y, path, ...) *)
Definition initialize (self : ParallelProcessing) (j : job) (X : ndarray)
    (y : option ndarray) (path : option string) : ParallelProcessing :=
  {| backend := backend self; n_jobs := n_jobs self;
     current_job := Some {| job_name := j; dir := default tmpdir path;
                            predict_in := X; targets := y |} |}.

(** manager.process(tasks, out): the tasks write into the cache of the
    job. *)
Definition process (self : ParallelProcessing) (tasks : list task)
    (fs : filesystem) : result ndarray * filesystem :=
  match current_job self with
  | None => (Raise (PyException "ParallelProcessingError" "not initialized"), fs)
  | Some jb =>
      (Ok (output tasks (predict_in jb)),
       fs ∪ list_to_set ((λ f, (dir jb, f)) <$> generated tasks))
  end.

(** manager.stack(tasks, job, X, y, ...) and manager.map: initialize,
    then process. *)
Definition stack_ (self : ParallelProcessing) (tasks : list task) (j : job)
    (X : ndarray) (y : option ndarray) (path : option string) (fs : filesystem)
    : result ndarray * ParallelProcessing * filesystem :=
  let self := initialize self j X y path in
  let '(r, fs) := process self tasks fs in
  (r, self, fs).

(** manager.clear() *)
Definition clear (self : ParallelProcessing) (fs : filesystem)
    : ParallelProcessing * filesystem :=
  ({| backend := backend self; n_jobs := n_jobs self; current_job := None |},
   match current_job self with
   | None => fs
   | Some jb => remove_dir_files (dir jb) fs
   end).

Definition __enter__ (self : ParallelProcessing) : ParallelProcessing := self.
Definition __exit__ (self : ParallelProcessing) (fs : filesystem)
    : ParallelProcessing * filesystem := clear self fs.

(** with manager as m: body.  The body works on the instance and the
    disk; [__exit__] runs however the body ends. *)
Definition with_ {A} (manager : ParallelProcessing)
    (body : ParallelProcessing → filesystem →
            result A * ParallelProcessing * filesystem)
    (fs : filesystem) : result A * ParallelProcessing * filesystem :=
  let '(r, m, fs) := body (__enter__ manager) fs in
  let '(m, fs) := __exit__ m fs in
  (r, m, fs).
End Manager.

End Mlens.

(** ** Name use in the scripts *)

Module Names.
Import Source.

(** The names an expression reads, in source order. *)
Definition names_read (e : expr) : list string :=
  omap (λ sub, match sub with EName x => Some x | _ => None end) (subexprs e).

(** The names a statement reads itself, its blocks apart. *)
Definition stmt_reads (s : stmt) : list string :=
  flat_map names_read (stmt_exprs s).

(** The builtins the scripts call or catch. *)
Definition builtins : list string := ["print"; "range"; "str"; "list"; "Exception"].

(** What a pass over a script knows: the names bound so far and the
    reads that found no binding, with their lines. *)
Record use_state : Type := UseState {
  bound : list string;
  unbound : list (nat * string)
}.

Definition read_at (l : nat) (xs : list string) (st : use_state) : use_state :=
  UseState (bound st)
           (unbound st ++ ((λ x, (l, x)) <$> filter (λ x, x ∉ bound st) xs)).

Definition bind_names (xs : list string) (st : use_state) : use_state :=
  UseState (xs ++ bound st) (unbound st).

(** A block whose bindings do not outlive it: the unbound reads found
    in it are kept, the names bound are those from before. *)
Definition scoped (before : use_state) (after : use_state) : use_state :=
  UseState (bound before) (unbound after).

(** One statement, in execution order.  A [for] body may run no time,
    an [if] body may be skipped and a [try] body may stop half way, so
    what they bind is not relied on afterwards; a [with] body runs once.
    A function body is checked against the names bound where the [def]
    stands, its own name and its parameters. *)
Fixpoint check (s : stmt) (st : use_state) : use_state :=
  match s with
  | SDocstring _ => st
  | SImportFrom _ _ names => bind_names names st
  | SImport _ names => bind_names ((λ '(m, a), default m a) <$> names) st
  | SAssign l t v =>
      let st := read_at l (stmt_reads s) st in
      match t with EName x => bind_names [x] st | _ => st end
  | SExpr l _ | SReturn l _ => read_at l (stmt_reads s) st
  | SFor l x _ body =>
      let st := read_at l (stmt_reads s) st in
      scoped st (foldl (λ st s', check s' st) (bind_names [x] st) body)
  | SIf l _ body =>
      let st := read_at l (stmt_reads s) st in
      scoped st (foldl (λ st s', check s' st) st body)
  | STry l body _ x handler =>
      let st1 := scoped st (foldl (λ st s', check s' st) st body) in
      let st2 := read_at l (stmt_reads s) st1 in
      scoped st2 (foldl (λ st s', check s' st) (bind_names [x] st2) handler)
  | SWith l _ x body =>
      let st := read_at l (stmt_reads s) st in
      foldl (λ st s', check s' st) (bind_names [x] st) body
  | SDef _ x params body =>
      let st := bind_names [x] st in
      scoped st (foldl (λ st s', check s' st) (bind_names params st) body)
  | SClass l x _ body =>
      let st := read_at l (stmt_reads s) st in
      bind_names [x] (scoped st (foldl (λ st s', check s' st) st body))
  end.

(** The reads of a file that no earlier statement has bound. *)
Definition unbound_reads (file : list stmt) : list (nat * string) :=
  unbound (foldl (λ st s, check s st) (UseState builtins []) file).

(** The statements of the module's own scope: every statement but
    those inside a function or class body. *)
Fixpoint module_scope (s : stmt) : list stmt :=
  s :: match s with
       | SFor _ _ _ body | SIf _ _ body | SWith _ _ _ body =>
           flat_map module_scope body
       | STry _ body _ _ handler =>
           flat_map module_scope body ++ flat_map module_scope handler
       | _ => []
       end.

(** The names a script binds in its module scope, in order, once each. *)
Definition module_names (file : list stmt) : list string :=
  remove_dups (flat_map (λ s, fst <$> binds s) (flat_map module_scope file)).

(** The names a script binds and reads nowhere, function bodies
    included. *)
Definition never_read (file : list stmt) : list string :=
  filter (λ x, load_lines x file = []) (module_names file).

(** Whether a binding is an import. *)
Definition is_import (b : binding) : bool :=
  match b with ByImportFrom _ | ByImport _ => true | _ => false end.

End Names.

(** ** parallel.py, lines 103 to 120: the stack of tasks *)

Module Tasks.

(** 'sc-%i' % k, for a prefix and a number that is not negative. *)
Definition format_i (prefix : string) (k : nat) : string :=
  String.append prefix (pretty k).

Section Loop.
Context {F : Type} (fsub : F → F → F) (fabs : F → F).

(** Pipeline([('err', Error(error_scorer))], return_y=True): the steps,
    each with its name, and the flag. *)
Record Pipeline : Type := {
  steps : list (string * ErrorTransformer.Error (list F) (list F) (list F));
  return_y : bool
}.

(** A task, by the constructor called and the keyword arguments given:
    Transformer(estimator=, indexer=, name=) or
    Learner(estimator=, preprocess=, indexer=, name=). *)
Inductive task : Type :=
| Transformer (estimator : Pipeline) (indexer : Mlens.indexer) (name : string)
| Learner (estimator : Mlens.estimator) (preprocess : option string)
          (indexer : Mlens.indexer) (name : string).

Definition task_name (t : task) : string :=
  match t with Transformer _ _ n | Learner _ _ _ n => n end.

Definition is_learner (t : task) : bool :=
  match t with Learner _ _ _ _ => true | Transformer _ _ _ => false end.

(** The transformer that iteration [i] builds (lines 106 to 111). *)
Definition transformer_of (indexer : Mlens.indexer) (i : nat) : task :=
  let pipeline :=
    {| steps := [("err", ErrorTransformer.__init__
                           (ErrorTransformer.error_scorer fsub fabs))];
       return_y := true |} in
  Transformer pipeline indexer (format_i "sc-" (i + 1)).

(** The learner that iteration [i] builds (lines 114 to 119). *)
Definition learner_of (indexer : Mlens.indexer) (i : nat) : task :=
  Learner (Mlens.OLS 0)
          (if bool_decide (i ≠ 0%nat) then Some (format_i "sc-" (i + 1)) else None)
          indexer
          (format_i "ols-" (i + 1)).

(** The body of the loop, on the list [tasks] it appends to:
    if i != 0: ...; tasks.append(transformer)
    learner = Learner(...); tasks.append(learner) *)
Definition loop_body (indexer : Mlens.indexer) (tasks : list task) (i : nat)
    : list task :=
  let tasks :=
    if bool_decide (i ≠ 0%nat)
    then tasks ++ [transformer_of indexer i]
    else tasks in
  tasks ++ [learner_of indexer i].

(** tasks = []; for i in range(n): body *)
Definition build_tasks (indexer : Mlens.indexer) (n : nat) : list task :=
  foldl (loop_body indexer) [] (seq 0 n).

(** What stands at position [j] of the list: a learner at the even
    positions, a transformer at the odd ones. *)
Definition task_at (indexer : Mlens.indexer) (j : nat) : task :=
  if Nat.even j then learner_of indexer (j / 2)
  else transformer_of indexer ((j + 1) / 2).

(** The script's list: range(3), with the indexer of line 53. *)
Definition tasks : list task := build_tasks (Mlens.FoldIndex 2) 3.

(** return_preds=['ols-1', 'ols-2'] of line 154. *)
Definition return_preds : list string := ["ols-1"; "ols-2"].
End Loop.

End Tasks.

(** ** learner.py, line 183: [mse] *)

Module Scorers.

Section Mse.
(** The scalars with their subtraction, the square [x ** 2] and the
    mean of an array, [np.mean]. *)
Context {F : Type} (fsub : F → F → F) (fsquare : F → F) (fmean : list F → F).

(** def mse(y, p): return np.mean((y - p) ** 2) *)
Definition mse (y p : Numpy.ndarray) : result F :=
  d ← Numpy.subtract fsub y p; mret (fmean (fsquare <$> d)).
End Mse.

(** Two shapes numpy can combine: equal, or one of them of length one. *)
Definition broadcastable {F : Type} (p y : list F) : Prop :=
  length p = length y ∨ length p = 1%nat ∨ length y = 1%nat.

End Scorers.

(** * Properties *)

(** ** The supplied files define none of the library's types *)

Section Static.
Import Source.

(** C2: none of the core types (Layer, Group, Learner, Transformer,
    ParallelProcessing, Job, Pipeline, the indexers) is defined in a
    supplied file; wherever a file binds such a name it does so by an
    import from the mlens package, and each of the names is imported by
    some file; what the files define themselves are the small helpers
    error_scorer, Error with its three methods, mse and run. *)
Theorem core_types_imported_not_defined :
  Forall (λ file : string * list stmt,
            Forall (λ n, (n ∉ defined_names file.2)
                         ∧ Forall (λ b : nat * binding,
                                     imported_from_mlens b.2 = true)
                                  (bindings_of n file.2))
                   core_types)
         supplied_files
  ∧ Forall (λ n, Exists (λ file : string * list stmt,
                           bindings_of n file.2 ≠ [])
                        supplied_files)
           core_types
  ∧ flat_map (λ file : string * list stmt, defined_names file.2) supplied_files
    = ["error_scorer"; "Error"; "__init__"; "fit"; "transform"; "mse"; "run"].
Proof.
  split; [|split].
  - compute_done.
  - compute_done.
  - reflexivity.
Qed.

(** ** The call surface *)

(** C4, as stated, fails: line 48 of layer.py calls make_group, which is
    an operation of the library and not on the list. *)
Lemma make_group_outside_call_surface : ¬ call_surface_closed.
Proof.
  intros closed.
  specialize (closed (CallSite 48 None "make_group")).
  assert (in_surface (CallSite 48 None "make_group") = true) as contra.
  { apply closed. compute_done. }
  vm_compute in contra. discriminate contra.
Qed.

(** C4, amended: every operation on the listed call surface is called by
    the scripts, and the scripts call further operations of the library
    besides: the constructors, make_group, layer.push, the generators of
    a learner, the sub-learners they yield, the transformer's setup and
    collect, and job.args. *)
Theorem call_surface_used_and_exceeded :
  Forall (λ p, Exists (λ c, matches p c = true) all_library_calls) call_surface
  ∧ remove_dups (callee_text <$> filter (λ c, in_surface c = false) all_library_calls)
    = [ "BlendIndex"; "Layer"; "make_group"; "layer.push"; "ParallelProcessing"
      ; "FoldIndex"; "learner.gen_fit"; "learner.gen_transform"
      ; "sub_learner.transform"; "Job"; "sub_learner"; "SubsetIndex"
      ; "sub_learner.fit"; "Pipeline"; "Scale"; "Transformer"; "Learner"; "OLS"
      ; "transformer.setup"; "transformer"; "subtransformer"; "sublearner"
      ; "transformer.collect"; "job.args"; "learner" ].
Proof.
  split.
  - compute_done.
  - vm_compute. reflexivity.
Qed.

(** ** The closing example of parallel.py *)

(** C8: the with statement of line 205 binds its new ParallelProcessing
    instance to the name mananger, which no line reads; the two calls in
    its body are manager.stack, and manager is bound once, at line 58,
    so they go to that earlier instance, on which line 189 has already
    called clear; no call has mananger as its receiver. *)
Theorem context_manager_instance_never_used :
  last parallel_py
  = Some (SWith 205 (call (EName "ParallelProcessing") []) "mananger"
            [ SExpr 206
                (callk (meth "manager" "stack")
                   [EName "learner"; EStr "fit"; EName "X"; EName "y"]
                   [("split", EFalse)])
            ; SAssign 207 (EName "out")
                (callk (meth "manager" "stack")
                   [EName "learner"; EStr "predict"; EName "X"]
                   [("split", EFalse)]) ])
  ∧ bindings_of "mananger" parallel_py
    = [(205%nat, ByWith (call (EName "ParallelProcessing") []))]
  ∧ load_lines "mananger" parallel_py = []
  ∧ filter (λ c, cs_recv c = Some "mananger") (library_calls parallel_py) = []
  ∧ filter (λ c, (205 < cs_line c)%nat) (library_calls parallel_py)
    = [CallSite 206 (Some "manager") "stack"; CallSite 207 (Some "manager") "stack"]
  ∧ Forall (λ l, binding_in_force "manager" l parallel_py
                 = Some (58%nat,
                         ByAssign (callk (EName "ParallelProcessing") []
                                     [("n_jobs", EInt (-1))])))
           [189; 206; 207]%nat
  ∧ bindings_of "manager" parallel_py
    = [(58%nat, ByAssign (callk (EName "ParallelProcessing") []
                            [("n_jobs", EInt (-1))]))]
  ∧ stmts_at 189 parallel_py = [SExpr 189 (call (meth "manager" "clear") [])]
  ∧ filter (λ c, cs_op c = "clear") (library_calls parallel_py)
    = [CallSite 189 (Some "manager") "clear"].
Proof.
  repeat split; try (vm_compute; reflexivity).
  repeat constructor.
Qed.

End Static.

(** ** The Error transformer *)

Section ErrorProps.
Import ErrorTransformer.



End ErrorProps.

(** ** Seeding *)

Section SeedingRuns.
Import Source Seeding.
Context {rng ndarray world : Type}.
Variable seed : Z → rng.
Variable rand : Z → rng → ndarray * rng.
Variable other : world → nat → rng → option rng.

Local Abbreviation step := (step seed rand other).
Local Abbreviation run_script := (run_script seed rand other).
Local Abbreviation targets := (targets seed rand other).
Local Abbreviation generator_at := (generator_at seed rand other).
Local Abbreviation through := (through other).

(** A stopped script stays where it stopped. *)
Lemma run_stopped (w : world) (file : list stmt) (st : run_state) :
  stopped st = true → foldl (step w) st file = st.
Proof.
  intros Hst. induction file as [|s file IH]; [reflexivity|].
  simpl. unfold Seeding.step at 2. rewrite Hst. exact IH.
Qed.

Lemma step_draws_nothing (w : world) (st : run_state) (s : stmt) :
  draws_nothing s = true → draws (step w st s) = draws st.
Proof.
  unfold draws_nothing, Seeding.step. intros Hs.
  destruct st as [g d np sp]. simpl.
  destruct sp; [reflexivity|].
  destruct np; destruct (classify true s), (classify false s);
    try discriminate Hs; simpl;
    repeat case_match; reflexivity.
Qed.

Lemma run_draws_nothing (w : world) (file : list stmt) (st : run_state) :
  Forall (λ s, draws_nothing s = true) file →
  draws (foldl (step w) st file) = draws st.
Proof.
  intros Hfile. revert st.
  induction Hfile as [|s file Hs _ IH]; intros st; [reflexivity|].
  simpl. rewrite IH. apply step_draws_nothing, Hs.
Qed.

(** The targets of a script are decided by the time its last drawing
    statement has run. *)
Lemma targets_decided (pre post : list stmt) (w : world) (g : rng) :
  Forall (λ s, draws_nothing s = true) post →
  targets (pre ++ post) w g
  = snd <$> last (filter (λ d, d.1.2 = "y") (draws (run_script pre w g))).
Proof.
  intros Hpost. unfold Seeding.targets, Seeding.run_script.
  rewrite foldl_app, run_draws_nothing by exact Hpost. reflexivity.
Qed.

Lemma foldl_step_cons {A B} (f : A → B → A) (a : A) (x : B) (l : list B) (a' : A) :
  f a x = a' → foldl f a (x :: l) = foldl f a' l.
Proof. intros <-. reflexivity. Qed.

(** One statement of a run at a time: evaluate the step, then split on
    what an unknown statement or a draw yields. *)
Local Ltac run_step :=
  lazymatch goal with
  | |- context [foldl (Seeding.step seed rand other ?w) ?st (?s :: ?rest)] =>
      let st' := eval vm_compute in (Seeding.step seed rand other w st s) in
      rewrite (foldl_step_cons (Seeding.step seed rand other w) st s rest st'
                 ltac:(vm_compute; reflexivity))
  end;
  try match goal with
      | |- context [other ?w ?l ?g] => destruct (other w l g) eqn:?
      end;
  try match goal with
      | |- context [rand ?n ?g] => destruct (rand n g) eqn:?
      end.

Local Ltac run_prefix k file :=
  let l := eval vm_compute in (take k file) in
  change (take k file) with l;
  repeat run_step;
  vm_compute.

Lemma layer_py_targets (w : world) (g : rng) (a : ndarray) :
  targets layer_py w g = Some a → a = (rand 10 (seed 2)).1.
Proof.
  change layer_py with (take 10 layer_py ++ drop 10 layer_py).
  rewrite targets_decided by compute_done.
  unfold Seeding.run_script. run_prefix 10%nat layer_py; try discriminate.
  intros ?. simplify_eq. reflexivity.
Qed.

Lemma parallel_py_targets (w : world) (g : rng) (a : ndarray) :
  targets parallel_py w g = Some a → a = (rand 10 (seed 2)).1.
Proof.
  change parallel_py with (take 8 parallel_py ++ drop 8 parallel_py).
  rewrite targets_decided by compute_done.
  unfold Seeding.run_script. run_prefix 8%nat parallel_py; try discriminate.
  intros ?. simplify_eq. reflexivity.
Qed.

(** The state learner.py draws from is what the statements above line
    69 make of the state the run started in: three imports from mlens,
    two constructor calls and two more imports, none of them a seed. *)
Lemma learner_py_entry_state (w : world) (g : rng) :
  generator_at 69 learner_py w g = through w [42; 43; 44; 47; 48; 65; 66]%nat g.
Proof.
  unfold Seeding.generator_at, Seeding.run_script.
  change (before 69 learner_py) with (take 9 learner_py).
  match goal with |- _ = ?chain => set (rhs := chain) end.
  run_prefix 9%nat learner_py; subst rhs;
    repeat (cbn [Seeding.through];
            match goal with
            | H : other ?w ?l ?g = _ |- context [other ?w ?l ?g] => rewrite H
            end);
    reflexivity.
Qed.

Lemma learner_py_targets (w : world) (g : rng) (a : ndarray) :
  targets learner_py w g = Some a →
  ∃ g', generator_at 69 learner_py w g = Some g' ∧ a = (rand 10 g').1.
Proof.
  rewrite learner_py_entry_state.
  match goal with |- _ → ∃ g', ?chain = _ ∧ _ => set (rhs := chain) end.
  change learner_py with (take 10 learner_py ++ drop 10 learner_py).
  rewrite targets_decided by compute_done.
  unfold Seeding.run_script. run_prefix 10%nat learner_py; try discriminate.
  intros ?. simplify_eq. eexists. split.
  - subst rhs.
    repeat (cbn [Seeding.through];
            match goal with
            | H : other ?w ?l ?g = _ |- context [other ?w ?l ?g] => rewrite H
            end).
    reflexivity.
  - match goal with H : rand _ _ = _ |- _ => rewrite H end. reflexivity.
Qed.

(** The targets of the three scripts, in closed form. *)
Lemma layer_py_targets_exact (w : world) (g : rng) :
  targets layer_py w g
  = (λ _, (rand 10 (seed 2)).1) <$> through w [42; 43; 44; 47; 48; 56]%nat g.
Proof.
  match goal with |- _ = ?t => set (rhs := t) end.
  change layer_py with (take 10 layer_py ++ drop 10 layer_py).
  rewrite targets_decided by compute_done.
  unfold Seeding.run_script. run_prefix 10%nat layer_py; subst rhs;
    repeat (cbn [Seeding.through];
            match goal with
            | H : other ?w ?l ?g = _ |- context [other ?w ?l ?g] => rewrite H
            end);
    cbn [Seeding.through fmap option_fmap option_map];
    rewrite ?Heqp; reflexivity.
Qed.

Lemma parallel_py_targets_exact (w : world) (g : rng) :
  targets parallel_py w g
  = (λ _, (rand 10 (seed 2)).1) <$> through w [42; 43; 44; 46]%nat g.
Proof.
  match goal with |- _ = ?t => set (rhs := t) end.
  change parallel_py with (take 8 parallel_py ++ drop 8 parallel_py).
  rewrite targets_decided by compute_done.
  unfold Seeding.run_script. run_prefix 8%nat parallel_py; subst rhs;
    repeat (cbn [Seeding.through];
            match goal with
            | H : other ?w ?l ?g = _ |- context [other ?w ?l ?g] => rewrite H
            end);
    cbn [Seeding.through fmap option_fmap option_map];
    rewrite ?Heqp; reflexivity.
Qed.

Lemma learner_py_targets_exact (w : world) (g : rng) :
  targets learner_py w g
  = (λ g', (rand 10 g').1) <$> through w [42; 43; 44; 47; 48; 65; 66]%nat g.
Proof.
  match goal with |- _ = ?t => set (rhs := t) end.
  change learner_py with (take 10 learner_py ++ drop 10 learner_py).
  rewrite targets_decided by compute_done.
  unfold Seeding.run_script. run_prefix 10%nat learner_py; subst rhs;
    repeat (cbn [Seeding.through];
            match goal with
            | H : other ?w ?l ?g = _ |- context [other ?w ?l ?g] => rewrite H
            end);
    cbn [Seeding.through fmap option_fmap option_map];
    rewrite ?Heqp; reflexivity.
Qed.


End SeedingRuns.





(** ** Layers: predicting after a push *)

Section LayerProps.
Import Mlens.

Lemma fit_layer_fitted (layer : Layer) : layer_fitted (fit_layer layer) = true.
Proof.
  unfold layer_fitted, fit_layer. simpl.
  induction (stack layer) as [|g gs IH]; simpl; [reflexivity | exact IH].
Qed.

Lemma push_unfitted_not_fitted (layer : Layer) (g : Group) :
  g_fitted g = false → layer_fitted (push layer g) = false.
Proof.
  intros Hg. unfold layer_fitted, push. simpl.
  induction (stack layer) as [|g' gs IH]; simpl.
  - rewrite Hg. reflexivity.
  - rewrite IH. apply andb_false_r.
Qed.

(** C1: whenever a layer has been fitted and a new, unfitted group is
    then pushed onto its stack, run(layer, 'predict', X, y) raises; in
    layer.py the exception is caught, the line "Error: " followed by its
    message is printed, and the script runs on to its end. *)
Theorem predict_after_push_raises :
  ∀ (ndarray data : Type) (predictions : Layer → job → ndarray → ndarray)
    (collected : Layer → data) (msg : string),
    (∀ (layer fitted : Layer) (g : Group) (X X' : ndarray) (y y' : option ndarray)
       (rp rp' : bool) (r : option ndarray),
       run predictions msg layer Fit X y rp = Ok (r, fitted) →
       g_fitted g = false →
       run predictions msg (push fitted g) Predict X' y' rp'
       = Raise (PyException "NotFittedError" msg))
    ∧ (∀ (X y : ndarray),
         (layer_py predictions collected msg X y []).1 = Ok tt
         ∧ text_lines (layer_py predictions collected msg X y []).2
           = [String.append "Error: " msg; ""; "Collected data:"]).
Proof.
  intros ndarray data predictions collected msg. split.
  - intros layer fitted g X X' y y' rp rp' r Hfit Hg.
    unfold run in Hfit. injection Hfit as _ <-.
    unfold run. rewrite push_unfitted_not_fitted by exact Hg. reflexivity.
  - intros X y. split; vm_compute; reflexivity.
Qed.

(** A layer of one group, fitted, then given a second group. *)
Lemma predict_after_push_raises_witness :
  run (λ _ _ (X : list Z), X) "not fitted"
      (push (fit_layer (Layer__init__
                          [make_group (FoldIndex 4) (Plain [OLS 0]) (Plain []) None]))
            (make_group (FoldIndex 2) (Plain [OLS 1]) (Plain []) None))
      Predict [1; 2] (Some [3]) false
  = Raise (PyException "NotFittedError" "not fitted").
Proof.
  apply (proj1 (predict_after_push_raises (list Z) unit (λ _ _ X, X) (λ _, tt)
                  "not fitted")
           (Layer__init__ [make_group (FoldIndex 4) (Plain [OLS 0]) (Plain []) None])
           _ _ [1; 2] [1; 2] (Some [3]) (Some [3]) false false None).
  - reflexivity.
  - reflexivity.
Defined.

End LayerProps.

(** ** Learners: what fitting leaves in the cache *)

Section LearnerProps.
Import Mlens.

(** The loop of lines 78 and 79 appends one entry per sub-learner. *)
Lemma fit_loop_appends (subs : list SubLearner) (path : list cached) :
  foldl (λ path sub_learner, SubLearner_fit sub_learner path) path subs
  = path ++ (cache_entry <$> subs).
Proof.
  revert path. induction subs as [|sl subs IH]; intros path; simpl.
  - rewrite app_nil_r. reflexivity.
  - rewrite IH. unfold SubLearner_fit. rewrite <- app_assoc. reflexivity.
Qed.

Lemma fit_into_cache_entries {ndarray : Type} (learner : Learner) (X y : ndarray) :
  fit_into_cache learner X y
  = match gen_fit (setup learner X y Fit 0) X y with
    | Ok subs => Ok (cache_entry <$> subs)
    | Raise e => Raise e
    end.
Proof.
  unfold fit_into_cache.
  destruct (gen_fit (setup learner X y Fit 0) X y) as [subs|e]; [|reflexivity].
  change (Ok (foldl (λ path sub_learner, SubLearner_fit sub_learner path) [] subs)
          = Ok (cache_entry <$> subs)).
  rewrite fit_loop_appends. reflexivity.
Qed.

(** With k folds the cache receives k + 1 entries. *)
Lemma fold_index_cache_size {ndarray : Type} (est : estimator) (nm : string)
    (k : nat) (X y : ndarray) :
  ∃ path, fit_into_cache (Learner__init__ est (FoldIndex k) nm) X y = Ok path
          ∧ length path = S k.
Proof.
  eexists. split.
  - rewrite fit_into_cache_entries. reflexivity.
  - simpl. rewrite app_nil_r, !length_fmap, length_seq. reflexivity.
Qed.

(** C3: after setup for 'fit' with FoldIndex(folds=2), fitting every
    sub-learner that gen_fit generates leaves exactly three fitted
    estimators in the cache, one fitted on the full data and one per
    fold, each under a key of the form name.col_id.fold_id; for the
    learner of the tutorial the keys are ols.0.0, ols.0.1, ols.0.2. *)
Theorem fold_index_2_caches_three :
  ∀ (ndarray : Type) (est : estimator) (nm : string) (X y : ndarray),
    (∃ path,
       fit_into_cache (Learner__init__ est (FoldIndex 2) nm) X y = Ok path
       ∧ length path = 3%nat
       ∧ fitted_on <$> path = [FullData; Fold 1; Fold 2]
       ∧ Forall (λ c, key_form nm (key c) ∧ fitted_estimator c = est) path)
    ∧ learner_py_cache X y
      = Ok [ {| key := "ols.0.0"; fitted_on := FullData; fitted_estimator := OLS 0 |}
           ; {| key := "ols.0.1"; fitted_on := Fold 1; fitted_estimator := OLS 0 |}
           ; {| key := "ols.0.2"; fitted_on := Fold 2; fitted_estimator := OLS 0 |} ].
Proof.
  intros ndarray est nm X y. split.
  - eexists. split; [|split; [|split]].
    + rewrite fit_into_cache_entries. reflexivity.
    + reflexivity.
    + reflexivity.
    + simpl. repeat constructor; eexists _, _; reflexivity.
  - vm_compute. reflexivity.
Qed.

End LearnerProps.

(** ** The manager: clearing the cache *)

Section ManagerProps.
Import Mlens.

Lemma elem_of_remove_dir (d : string) (fs : filesystem) (f : string * string) :
  f ∈ remove_dir_files d fs ↔ f.1 ≠ d ∧ f ∈ fs.
Proof.
  unfold remove_dir_files.
  apply (elem_of_filter (λ f : string * string, f.1 ≠ d)).
Qed.

Lemma files_in_remove_dir (d : string) (fs : filesystem) :
  files_in d (remove_dir_files d fs) = ∅.
Proof.
  apply set_eq. intros f. unfold files_in.
  rewrite (elem_of_filter (λ f : string * string, f.1 = d)).
  rewrite elem_of_remove_dir, elem_of_empty.
  split; [intros [Heq [Hne _]]; exact (Hne Heq) | intros []].
Qed.

(** Clearing an initialized manager leaves nothing in the directory of
    its job, whatever was there. *)
Lemma clear_empties_job_dir {ndarray : Type} (self : @ParallelProcessing ndarray)
    (jb : Job) (fs : filesystem) :
  current_job self = Some jb →
  files_in (dir jb) (clear self fs).2 = ∅ ∧ current_job (clear self fs).1 = None.
Proof.
  intros Hjob. unfold clear. simpl. rewrite Hjob.
  split; [apply files_in_remove_dir | reflexivity].
Qed.

(** C5: manager.clear() removes every file in the cache path given to
    initialize, whether the process call wrote it or it was there
    before, and touches no file elsewhere; used as a context manager,
    the instance clears the cache of its job on leaving the context, so
    nothing is left in it. *)
Theorem clear_removes_every_file_in_cache_path :
  ∀ (ndarray task : Type) (tmpdir : string) (generated : list task → list string)
    (output : list task → ndarray → ndarray),
    (∀ (self : ParallelProcessing) (j : job) (X : ndarray) (y : option ndarray)
       (path : string) (tasks : list task) (fs0 : filesystem),
       let m1 := initialize tmpdir self j X y (Some path) in
       let fs1 := (process generated output m1 tasks fs0).2 in
       files_in path (clear m1 fs1).2 = ∅
       ∧ current_job (clear m1 fs1).1 = None
       ∧ (∀ f, f.1 ≠ path → f ∈ (clear m1 fs1).2 ↔ f ∈ fs0))
    ∧ (∀ (A : Type) (manager : ParallelProcessing)
         (body : ParallelProcessing → filesystem →
                 result A * @ParallelProcessing ndarray * filesystem)
         (fs : filesystem),
         current_job (with_ manager body fs).1.2 = None
         ∧ (∀ jb, current_job (body manager fs).1.2 = Some jb →
                  files_in (dir jb) (with_ manager body fs).2 = ∅)).
Proof.
  intros ndarray task tmpdir generated output. split.
  - intros self j X y path tasks fs0 m1 fs1.
    split; [|split].
    + apply (clear_empties_job_dir m1 _ fs1 eq_refl).
    + reflexivity.
    + intros f Hf. subst fs1 m1. unfold clear, process, initialize. simpl.
      rewrite elem_of_remove_dir, elem_of_union, elem_of_list_to_set,
        list_elem_of_fmap.
      split.
      * intros [_ [Hin | (g & -> & _)]]; [exact Hin | contradiction Hf; reflexivity].
      * intros Hin. split; [exact Hf | left; exact Hin].
  - intros A manager body fs. unfold with_, __enter__, __exit__.
    destruct (body manager fs) as [[r m] fs'] eqn:Hbody. simpl.
    split; [reflexivity|].
    intros jb Hjb. rewrite Hjb. apply files_in_remove_dir.
Qed.

(** A cache directory that holds a stale file before the job starts;
    a file elsewhere stays, and a context whose body stacks one task
    ends with an empty cache. *)
Lemma clear_removes_every_file_in_cache_path_witness :
  (("home", "notes.txt") ∈
     (clear (initialize "tmp" (ParallelProcessing__init__ "threading" (-1))
               Fit tt None (Some "cache"))
        (process (λ tasks : list string, tasks) (λ _ X, X)
           (initialize "tmp" (ParallelProcessing__init__ "threading" (-1))
              Fit tt None (Some "cache"))
           ["ols.0.0"]
           {[ ("cache", "stale.pkl"); ("home", "notes.txt") ]}).2).2
   ↔ ("home", "notes.txt") ∈
       ({[ ("cache", "stale.pkl"); ("home", "notes.txt") ]} : filesystem))
  ∧ files_in "tmp"
      (with_ (ParallelProcessing__init__ "threading" (-1))
         (λ m fs, stack_ "tmp" (λ tasks : list string, tasks) (λ _ X, X)
                    m ["ols.0.0"] Fit tt None None fs)
         ∅).2
    = ∅.
Proof.
  split.
  - apply (proj1 (clear_removes_every_file_in_cache_path unit string "tmp"
                    (λ tasks, tasks) (λ _ X, X))
             (ParallelProcessing__init__ "threading" (-1)) Fit tt None "cache"
             ["ols.0.0"] {[ ("cache", "stale.pkl"); ("home", "notes.txt") ]}).
    simpl. discriminate.
  - apply (proj2 (proj2 (clear_removes_every_file_in_cache_path unit string "tmp"
                           (λ tasks, tasks) (λ _ X, X))
                    unit (ParallelProcessing__init__ "threading" (-1))
                    (λ m fs, stack_ "tmp" (λ tasks : list string, tasks) (λ _ X, X)
                               m ["ols.0.0"] Fit tt None None fs)
                    ∅)
             {| job_name := Fit; dir := "tmp"; predict_in := tt; targets := None |}).
    reflexivity.
Defined.

End ManagerProps.

(** ** The stack of tasks of parallel.py *)

Section TasksProps.
Import Tasks.
Context {F : Type} (fsub : F → F → F) (fabs : F → F).

Local Abbreviation build_tasks := (build_tasks fsub fabs).
Local Abbreviation task_at := (task_at fsub fabs).
Local Abbreviation learner_of := (@learner_of F).
Local Abbreviation transformer_of := (transformer_of fsub fabs).

Lemma build_tasks_S (idx : Mlens.indexer) (n : nat) :
  build_tasks idx (S n) = loop_body fsub fabs idx (build_tasks idx n) n.
Proof.
  unfold Tasks.build_tasks. rewrite seq_S, foldl_app. reflexivity.
Qed.

Lemma task_at_even (idx : Mlens.indexer) (n : nat) :
  task_at idx (2 * n) = learner_of idx n.
Proof.
  unfold Tasks.task_at.
  replace (Nat.even (2 * n)) with true
    by (symmetry; apply Nat.even_spec; exists n; reflexivity).
  replace (2 * n / 2)%nat with n by (apply Nat.div_unique_exact; lia).
  reflexivity.
Qed.

Lemma task_at_odd (idx : Mlens.indexer) (n : nat) :
  task_at idx (2 * n + 1) = transformer_of idx (S n).
Proof.
  unfold Tasks.task_at.
  replace (Nat.even (2 * n + 1)) with false.
  - replace ((2 * n + 1 + 1) / 2)%nat with (S n)
      by (apply Nat.div_unique_exact; lia).
    reflexivity.
  - symmetry. rewrite <- Nat.negb_odd. apply negb_false_iff.
    apply Nat.odd_spec. exists n. reflexivity.
Qed.

(** The list in closed form. *)
Lemma build_tasks_positions (idx : Mlens.indexer) (n : nat) :
  build_tasks idx n = task_at idx <$> seq 0 (2 * n - 1).
Proof.
  induction n as [|n IH]; [reflexivity|].
  rewrite build_tasks_S, IH. unfold loop_body.
  destruct n as [|n].
  - reflexivity.
  - rewrite bool_decide_true by lia.
    replace (2 * S (S n) - 1)%nat with (S (S (2 * S n - 1))) by lia.
    rewrite !seq_S, !fmap_app.
    change (task_at idx <$> [(0 + (2 * S n - 1))%nat])
      with [task_at idx (0 + (2 * S n - 1))].
    change (task_at idx <$> [(0 + S (2 * S n - 1))%nat])
      with [task_at idx (0 + S (2 * S n - 1))].
    replace (0 + (2 * S n - 1))%nat with (2 * n + 1)%nat by lia.
    replace (0 + S (2 * S n - 1))%nat with (2 * S n)%nat by lia.
    rewrite task_at_odd, task_at_even, <- app_assoc. reflexivity.
Qed.

Lemma build_tasks_lookup (idx : Mlens.indexer) (n j : nat) :
  (j < 2 * n - 1)%nat → build_tasks idx n !! j = Some (task_at idx j).
Proof.
  intros Hj. rewrite build_tasks_positions, list_lookup_fmap.
  rewrite lookup_seq_lt by exact Hj. reflexivity.
Qed.

Lemma build_tasks_length (idx : Mlens.indexer) (n : nat) :
  length (build_tasks idx n) = (2 * n - 1)%nat.
Proof. rewrite build_tasks_positions, length_fmap, length_seq. reflexivity. Qed.

(** On arrays of one length [error_scorer] is the elementwise absolute
    difference. *)
Lemma error_scorer_same_length (p y : list F) :
  length p = length y →
  ErrorTransformer.error_scorer fsub fabs p y
  = Ok (zip_with (λ a b, fabs (fsub a b)) p y).
Proof.
  intros Hlen. unfold ErrorTransformer.error_scorer, Numpy.subtract, Numpy.abs.
  rewrite decide_True by exact Hlen. simpl. f_equal.
  clear Hlen. revert y. induction p as [|a p IH]; intros [|b y]; simpl;
    [reflexivity..|]. f_equal. apply IH.
Qed.

(** X1: the loop of lines 103 to 120, run n times, leaves 2n - 1 tasks (none
    for n = 0) that alternate: the learner of iteration k stands at
    position 2k and, from the second iteration on, the transformer of
    iteration k right before it, at position 2k - 1.  This is the
    sequence learner, transformer, learner, ..., transformer, learner
    that the comment above the loop asks for. *)
Theorem tasks_alternate :
  ∀ (idx : Mlens.indexer) (n : nat),
    length (build_tasks idx n) = (2 * n - 1)%nat
    ∧ (∀ k, (k < n)%nat →
            build_tasks idx n !! (2 * k)%nat = Some (learner_of idx k))
    ∧ (∀ k, (0 < k < n)%nat →
            build_tasks idx n !! (2 * k - 1)%nat = Some (transformer_of idx k))
    ∧ is_learner <$> build_tasks idx n = Nat.even <$> seq 0 (2 * n - 1).
Proof.
  intros idx n. split; [apply build_tasks_length|]. split; [|split].
  - intros k Hk. rewrite build_tasks_lookup by lia. apply f_equal, task_at_even.
  - intros k Hk. rewrite build_tasks_lookup by lia. apply f_equal.
    replace (2 * k - 1)%nat with (2 * (k - 1) + 1)%nat by lia.
    rewrite task_at_odd. f_equal. lia.
  - rewrite build_tasks_positions, <- list_fmap_compose.
    apply list_fmap_ext. intros _ j _. unfold Tasks.task_at. simpl.
    destruct (Nat.even j); reflexivity.
Qed.

End TasksProps.

(** With three iterations: the second learner stands at position 2 and
    its transformer at position 1. *)
Lemma tasks_alternate_witness :
  Tasks.tasks Z.sub Z.abs !! 2%nat
  = Some (Tasks.learner_of (Mlens.FoldIndex 2) 1)
  ∧ Tasks.tasks Z.sub Z.abs !! 1%nat
    = Some (Tasks.transformer_of Z.sub Z.abs (Mlens.FoldIndex 2) 1).
Proof.
  split.
  - apply (proj1 (proj2 (tasks_alternate Z.sub Z.abs (Mlens.FoldIndex 2) 3)) 1%nat).
    lia.
  - apply (proj1 (proj2 (proj2 (tasks_alternate Z.sub Z.abs (Mlens.FoldIndex 2) 3)))
             1%nat).
    lia.
Defined.

Section TasksLinks.
Import Tasks.
Context {F : Type} (fsub : F → F → F) (fabs : F → F).

Local Abbreviation build_tasks := (build_tasks fsub fabs).

(** Every position of the list holds the task its parity calls for. *)
Lemma build_tasks_lookup_inv (idx : Mlens.indexer) (n j : nat) (t : task) :
  build_tasks idx n !! j = Some t →
  (j < 2 * n - 1)%nat ∧ t = task_at fsub fabs idx j.
Proof.
  intros Hj.
  assert (j < 2 * n - 1)%nat as Hlt.
  { rewrite <- (build_tasks_length fsub fabs idx n). eapply lookup_lt_Some, Hj. }
  split; [exact Hlt|].
  rewrite build_tasks_lookup in Hj by exact Hlt. congruence.
Qed.

(** X2: in the list the loop builds, a learner that names a preprocessing
    step is never first: the task right before it is the transformer of
    that name, on the same indexer.  The only learner without a
    preprocessing step is the first task. *)
Theorem learner_follows_its_transformer :
  ∀ (idx : Mlens.indexer) (n j : nat) (est : Mlens.estimator)
    (pre : option string) (ix : Mlens.indexer) (nm : string),
    build_tasks idx n !! j = Some (Learner est pre ix nm) →
    match pre with
    | Some sc =>
        ∃ j' p, j = S j' ∧ build_tasks idx n !! j' = Some (Transformer p ix sc)
    | None => j = 0%nat
    end.
Proof.
  intros idx n j est pre ix nm Hj.
  destruct (build_tasks_lookup_inv idx n j _ Hj) as [Hlt Ht].
  unfold Tasks.task_at in Ht.
  destruct (Nat.even j) eqn:Heven; [|discriminate Ht].
  apply Nat.even_spec in Heven as [k ->].
  replace (2 * k / 2)%nat with k in Ht by (apply Nat.div_unique_exact; lia).
  unfold Tasks.learner_of in Ht. injection Ht as -> -> -> ->.
  case_bool_decide as Hk.
  - exists (2 * k - 1)%nat. eexists. split; [lia|].
    rewrite build_tasks_lookup by lia.
    replace (2 * k - 1)%nat with (2 * (k - 1) + 1)%nat by lia.
    rewrite task_at_odd. replace (S (k - 1)) with k by lia. reflexivity.
  - lia.
Qed.

End TasksLinks.

(** The third learner of the script and the transformer before it. *)
Lemma learner_follows_its_transformer_witness :
  ∃ j' p, 4%nat = S j'
          ∧ Tasks.tasks Z.sub Z.abs !! j'
            = Some (Tasks.Transformer p (Mlens.FoldIndex 2) "sc-3").
Proof.
  apply (learner_follows_its_transformer Z.sub Z.abs (Mlens.FoldIndex 2) 3 4
           (Mlens.OLS 0)
           (Some "sc-3") (Mlens.FoldIndex 2) "ols-3").
  reflexivity.
Defined.

Section TasksNames.
Import Tasks.
Context {F : Type} (fsub : F → F → F) (fabs : F → F).

Local Abbreviation build_tasks := (build_tasks fsub fabs).

Lemma format_i_inj (prefix : string) (a b : nat) :
  format_i prefix a = format_i prefix b → a = b.
Proof.
  unfold format_i. intros Heq.
  apply (inj (String.append prefix)) in Heq. apply (inj pretty) in Heq. exact Heq.
Qed.

Lemma ols_is_not_sc (a b : nat) : format_i "ols-" a ≠ format_i "sc-" b.
Proof. unfold format_i. intros Heq. vm_compute in Heq. discriminate Heq. Qed.

(** The name at each position tells the position. *)
Lemma task_name_at_inj (idx : Mlens.indexer) (i j : nat) :
  task_name (task_at fsub fabs idx i) = task_name (task_at fsub fabs idx j) → i = j.
Proof.
  destruct (Nat.even i) eqn:Hi; destruct (Nat.even j) eqn:Hj.
  - apply Nat.even_spec in Hi as [a ->]. apply Nat.even_spec in Hj as [b ->].
    rewrite !task_at_even. simpl. intros Heq%format_i_inj. lia.
  - apply Nat.even_spec in Hi as [a ->].
    rewrite <- Nat.negb_odd in Hj. apply negb_false_iff, Nat.odd_spec in Hj as [b ->].
    rewrite task_at_even, task_at_odd. simpl. intros Heq.
    destruct (ols_is_not_sc _ _ Heq).
  - apply Nat.even_spec in Hj as [b ->].
    rewrite <- Nat.negb_odd in Hi. apply negb_false_iff, Nat.odd_spec in Hi as [a ->].
    rewrite task_at_even, task_at_odd. simpl. intros Heq. symmetry in Heq.
    destruct (ols_is_not_sc _ _ Heq).
  - rewrite <- Nat.negb_odd in Hi. apply negb_false_iff, Nat.odd_spec in Hi as [a ->].
    rewrite <- Nat.negb_odd in Hj. apply negb_false_iff, Nat.odd_spec in Hj as [b ->].
    rewrite !task_at_odd. simpl. intros Heq%format_i_inj. lia.
Qed.

(** X3: however many iterations the loop runs, no two tasks it builds share
    a name: the names, which the manager uses to refer to the tasks'
    caches, are pairwise distinct. *)
Theorem task_names_distinct :
  ∀ (idx : Mlens.indexer) (n : nat), NoDup (task_name <$> build_tasks idx n).
Proof.
  intros idx n. rewrite build_tasks_positions, <- list_fmap_compose.
  apply NoDup_fmap_2_strong; [|apply NoDup_seq].
  intros i j _ _ Heq. apply (task_name_at_inj idx). exact Heq.
Qed.

(** X4: every transformer the loop builds wraps a pipeline of one step, named
    err, that returns y, and on a prediction array and targets of one
    length that step yields the elementwise absolute errors together
    with the targets; every learner is an OLS on the indexer of the
    loop, and every name requested by return_preds at line 154 is the
    name of a learner of the script's list. *)
Theorem tasks_contents :
  ∀ (idx : Mlens.indexer) (n : nat) (t : task),
    (t ∈ build_tasks idx n →
     match t with
     | Transformer p ix _ =>
         ix = idx ∧ return_y p = true
         ∧ ∃ e, steps p = [("err", e)]
                ∧ ∀ X y : list F, length X = length y →
                    ErrorTransformer.transform e X y
                    = Ok (zip_with (λ a b, fabs (fsub a b)) X y, y)
     | Learner est _ ix _ => ix = idx ∧ est = Mlens.OLS 0
     end)
    ∧ return_preds ⊆ task_name <$> filter (λ t, is_learner t = true) (tasks fsub fabs).
Proof.
  intros idx n t. split.
  - intros Hin. apply list_elem_of_lookup in Hin as [j Hj].
    destruct (build_tasks_lookup_inv fsub fabs idx n j t Hj) as [_ ->].
    unfold Tasks.task_at. destruct (Nat.even j).
    + split; reflexivity.
    + split; [reflexivity|]. split; [reflexivity|]. eexists. split; [reflexivity|].
      intros X y Hlen. unfold ErrorTransformer.transform. simpl.
      rewrite (error_scorer_same_length fsub fabs X y Hlen). reflexivity.
  - intros x Hx. unfold return_preds in Hx.
    apply list_elem_of_In in Hx. apply list_elem_of_In.
    simpl in Hx. vm_compute. tauto.
Qed.

End TasksNames.

(** The first transformer of the script on two predictions. *)
Lemma tasks_contents_witness :
  ∃ e, [("err", ErrorTransformer.__init__ (ErrorTransformer.error_scorer Z.sub Z.abs))]
       = [("err", e)]
       ∧ ErrorTransformer.transform e [1; 5] [3; 2] = Ok ([2; 3], [3; 2]).
Proof.
  assert (Tasks.transformer_of Z.sub Z.abs (Mlens.FoldIndex 2) 1
          ∈ Tasks.build_tasks Z.sub Z.abs (Mlens.FoldIndex 2) 3) as Hin.
  { apply list_elem_of_In. simpl. right. left. reflexivity. }
  pose proof (proj1 (tasks_contents Z.sub Z.abs (Mlens.FoldIndex 2) 3 _) Hin) as H.
  simpl in H. destruct H as (_ & _ & e & He & Htr).
  exists e. split; [exact He | exact (Htr [1; 5] [3; 2] eq_refl)].
Defined.

(** ** The scorers: [error_scorer] and [mse] *)

Section SubtractProps.
Import Scorers.
Context {F : Type} (fsub : F → F → F).

Lemma subtract_ok (p y d : list F) :
  Numpy.subtract fsub p y = Ok d →
  broadcastable p y
  ∧ length d = if decide (length p = 1%nat) then length y else length p.
Proof.
  unfold Numpy.subtract, broadcastable. case_decide as Hlen.
  - intros [= <-]. split; [left; exact Hlen|].
    rewrite length_zip_with. case_decide; lia.
  - destruct p as [|p0 [|p1 p]]; destruct y as [|y0 [|y1 y]];
      simpl in *; try discriminate; try lia;
      intros [= <-]; (split; [auto|]); simpl; rewrite ?length_fmap; reflexivity.
Qed.

Lemma subtract_raises (p y : list F) :
  ¬ broadcastable p y →
  ∃ msg, Numpy.subtract fsub p y = Raise (PyException "ValueError" msg).
Proof.
  unfold Numpy.subtract, broadcastable. intros Hnot.
  rewrite decide_False by tauto.
  destruct p as [|p0 [|p1 p]]; destruct y as [|y0 [|y1 y]];
    simpl in *; try (exfalso; apply Hnot; auto; fail); eexists; reflexivity.
Qed.

Lemma Forall2_fmap_same {A B} (R : B → B → Prop) (f g : A → B) (l : list A) :
  (∀ x, R (f x) (g x)) → Forall2 R (f <$> l) (g <$> l).
Proof. intros HR. induction l; simpl; constructor; auto. Qed.

(** Swapping the operands of a subtraction that succeeds gives one that
    succeeds, with each difference taken the other way round. *)
Lemma subtract_swap (p y d : list F) :
  Numpy.subtract fsub p y = Ok d →
  ∃ d', Numpy.subtract fsub y p = Ok d'
        ∧ Forall2 (λ a b, ∃ u v, a = fsub u v ∧ b = fsub v u) d d'.
Proof.
  unfold Numpy.subtract. case_decide as Hlen.
  - intros [= <-]. rewrite decide_True by (symmetry; exact Hlen).
    eexists. split; [reflexivity|].
    clear Hlen. revert y. induction p as [|a p IH]; intros [|b y]; simpl;
      try constructor; [eexists _, _; split; reflexivity | apply IH].
  - rewrite decide_False by (intros Heq; apply Hlen; symmetry; exact Heq).
    destruct p as [|p0 [|p1 p]]; destruct y as [|y0 [|y1 y]];
      cbn [length] in Hlen; try lia; try discriminate; intros [= <-];
      (eexists; split; [reflexivity|]);
      simpl; repeat first [ apply Forall2_fmap_same; intros ? | constructor ];
      eexists _, _; split; reflexivity.
Qed.

End SubtractProps.

Section ScorerProps.
Import Scorers ErrorTransformer.
Context {F : Type} (fsub : F → F → F).

Lemma subtract_raise_inv (p y : list F) (e : exn) :
  Numpy.subtract fsub p y = Raise e → ¬ broadcastable p y.
Proof.
  unfold Numpy.subtract, broadcastable. case_decide as Hlen; [discriminate|].
  destruct p as [|p0 [|p1 p]]; destruct y as [|y0 [|y1 y]];
    cbn [length] in *; try discriminate; intros _; lia.
Qed.

Lemma swapped_images_agree {G : Type} (g : F → G) (d d' : list F) :
  (∀ a b, g (fsub a b) = g (fsub b a)) →
  Forall2 (λ a b, ∃ u v, a = fsub u v ∧ b = fsub v u) d d' →
  g <$> d = g <$> d'.
Proof.
  intros Hg Hdd. induction Hdd as [|a b d d' (u & v & -> & ->) _ IH]; simpl.
  - reflexivity.
  - f_equal; [apply Hg | exact IH].
Qed.

(** X5: error_scorer returns exactly when the two shapes can be broadcast
    (equal lengths, or one operand of length one) and raises ValueError
    otherwise; what it returns has the length of the longer operand, or
    of the other operand when one has length one. *)
Theorem error_scorer_shapes :
  ∀ (fabs : F → F) (p y : list F),
    (broadcastable p y ↔ ∃ r, error_scorer fsub fabs p y = Ok r)
    ∧ (∀ r, error_scorer fsub fabs p y = Ok r →
            length r = if decide (length p = 1%nat) then length y else length p)
    ∧ (¬ broadcastable p y →
       ∃ msg, error_scorer fsub fabs p y = Raise (PyException "ValueError" msg)).
Proof.
  intros fabs p y. unfold error_scorer.
  destruct (Numpy.subtract fsub p y) as [d|e] eqn:Hsub; simpl.
  - destruct (subtract_ok fsub p y d Hsub) as [Hb Hlen].
    split; [split; [eexists; reflexivity | intros _; exact Hb]|].
    split.
    + intros r [= <-]. unfold Numpy.abs. rewrite length_fmap. exact Hlen.
    + intros Hnot. destruct (Hnot Hb).
  - pose proof (subtract_raise_inv p y e Hsub) as Hnot.
    split; [split; [intros Hb; destruct (Hnot Hb) | intros [r [=]]]|].
    split; [intros r [=]|].
    intros _. destruct (subtract_raises fsub p y Hnot) as [msg Hmsg].
    exists msg. rewrite Hsub in Hmsg. exact Hmsg.
Qed.

(** X6: when the absolute difference does not depend on the order of its
    operands, neither does error_scorer: whatever it returns for (p, y)
    it returns for (y, p). *)
Theorem error_scorer_symmetric :
  ∀ (fabs : F → F),
    (∀ a b, fabs (fsub a b) = fabs (fsub b a)) →
    ∀ (p y r : list F),
      error_scorer fsub fabs p y = Ok r → error_scorer fsub fabs y p = Ok r.
Proof.
  intros fabs Habs p y r. unfold error_scorer.
  destruct (Numpy.subtract fsub p y) as [d|e] eqn:Hsub; simpl; [|discriminate].
  intros [= <-].
  destruct (subtract_swap fsub p y d Hsub) as (d' & -> & Hdd). simpl.
  unfold Numpy.abs. f_equal. symmetry.
  apply swapped_images_agree; assumption.
Qed.

(** X7: mse raises ValueError when the shapes of targets and predictions
    cannot be broadcast, and when squaring a difference does not depend
    on the order of its operands the score does not depend on which
    argument holds the targets. *)
Theorem mse_symmetric :
  ∀ (fsquare : F → F) (fmean : list F → F),
    (∀ (y p : list F), ¬ broadcastable y p →
       ∃ msg, mse fsub fsquare fmean y p = Raise (PyException "ValueError" msg))
    ∧ ((∀ a b, fsquare (fsub a b) = fsquare (fsub b a)) →
       ∀ (y p : list F) (r : F),
         mse fsub fsquare fmean y p = Ok r → mse fsub fsquare fmean p y = Ok r).
Proof.
  intros fsquare fmean. split.
  - intros y p Hnot. destruct (subtract_raises fsub y p Hnot) as [msg Hmsg].
    exists msg. unfold mse. rewrite Hmsg. reflexivity.
  - intros Hsq y p r. unfold mse.
    destruct (Numpy.subtract fsub y p) as [d|e] eqn:Hsub; simpl; [|discriminate].
    intros [= <-].
    destruct (subtract_swap fsub y p d Hsub) as (d' & -> & Hdd). simpl.
    do 2 f_equal. symmetry. apply swapped_images_agree; assumption.
Qed.

End ScorerProps.

(** Lengths three and two do not broadcast. *)
Lemma error_scorer_shapes_witness :
  (length (A:=Z) [2; 3] = if decide (length (A:=Z) [1; 5] = 1%nat)
                          then length (A:=Z) [3; 2] else length (A:=Z) [1; 5])
  ∧ ∃ msg, ErrorTransformer.error_scorer Z.sub Z.abs [1; 5; 9] [3; 2]
           = Raise (PyException "ValueError" msg).
Proof.
  split.
  - apply (proj1 (proj2 (error_scorer_shapes Z.sub Z.abs [1; 5] [3; 2]))).
    reflexivity.
  - apply (proj2 (proj2 (error_scorer_shapes Z.sub Z.abs [1; 5; 9] [3; 2]))).
    unfold Scorers.broadcastable. simpl. lia.
Defined.

(** On the integers |a - b| = |b - a|. *)
Lemma error_scorer_symmetric_witness :
  ErrorTransformer.error_scorer Z.sub Z.abs [3; 2] [1; 5] = Ok [2; 3].
Proof.
  apply (error_scorer_symmetric Z.sub Z.abs (λ a b, ltac:(lia)) [1; 5] [3; 2] [2; 3]).
  reflexivity.
Defined.

(** On the integers, with the sum standing for the mean. *)
Lemma mse_symmetric_witness :
  (∃ msg, Scorers.mse Z.sub (λ x, x * x) (foldr Z.add 0) [1; 5; 9] [3; 2]
          = Raise (PyException "ValueError" msg))
  ∧ Scorers.mse Z.sub (λ x, x * x) (foldr Z.add 0) [3; 2] [1; 5] = Ok 13.
Proof.
  split.
  - apply (proj1 (mse_symmetric Z.sub (λ x, x * x) (foldr Z.add 0))).
    unfold Scorers.broadcastable. simpl. lia.
  - apply (proj2 (mse_symmetric Z.sub (λ x, x * x) (foldr Z.add 0))
             (λ a b, ltac:(simpl; ring)) [1; 5] [3; 2] 13).
    reflexivity.
Defined.

(** ** Names: bound before read, and bound but never read *)

Section NamesProps.
Import Source Names.

(** X9: in each of the four files every name that a statement reads has
    been bound by a statement that surely ran before it (an import, an
    assignment, a def or class, the target of the enclosing for or
    with, the name of the enclosing except clause), or is a parameter
    of the enclosing function, or is one of the builtins print, range,
    str, list and Exception: no line can fail on an unbound name. *)
Theorem no_unbound_reads :
  Forall (λ file : string * list stmt, unbound_reads file.2 = []) supplied_files.
Proof. repeat constructor. Qed.

(** X10: the names the files bind and never read are Group in layer.py; Job,
    Scale and mananger in parallel.py; Layer in tutorials_source/layer.py;
    os and tempfile in learner.py.  All of them are imports but mananger,
    the target of the with statement. *)
Theorem never_read_names :
  (λ file : string * list stmt, never_read file.2) <$> supplied_files
  = [["Group"]; ["Job"; "Scale"; "mananger"]; ["Layer"]; ["os"; "tempfile"]]
  ∧ Forall (λ file : string * list stmt,
              Forall (λ x, x = "mananger"
                           ∨ Forall (λ b : nat * binding, is_import b.2 = true)
                                    (bindings_of x file.2))
                     (never_read file.2))
           supplied_files.
Proof.
  split.
  - vm_compute. reflexivity.
  - compute_done.
Qed.

(** X11: learner.py binds run twice: the def of line 315 is the binding in
    force at line 320, where Pool(4).map applies it, and the import from
    mlens.parallel at line 330 replaces it before line 332; so the only
    call of the library's run in learner.py is the one of line 332. *)
Theorem local_run_then_library_run :
  bindings_of "run" learner_py
  = [(315%nat, ByDef); (330%nat, ByImportFrom "mlens.parallel")]
  ∧ binding_in_force "run" 320 learner_py = Some (315%nat, ByDef)
  ∧ binding_in_force "run" 332 learner_py
    = Some (330%nat, ByImportFrom "mlens.parallel")
  ∧ load_lines "run" learner_py = [320%nat; 332%nat]
  ∧ filter (λ c, cs_op c = "run") (library_calls learner_py)
    = [CallSite 332 None "run"].
Proof. repeat split; vm_compute; reflexivity. Qed.

End NamesProps.

(** ** Seeding, for any script *)

Section Lockstep.
Import Source Seeding.
Context {rng ndarray world : Type}.
Variable seed : Z → rng.
Variable rand : Z → rng → ndarray * rng.
Variable other : world → nat → rng → option rng.

Local Abbreviation step := (step seed rand other).

(** Two runs in which np is numpy, that agree on the generator and on
    whether they have stopped, still do after a statement the script
    fixes, and have drawn the same array if it drew one. *)
Lemma step_fixed_by_script (w1 w2 : world) (st1 st2 : run_state) (s : stmt) :
  fixed_by_script s = true →
  np_numpy st1 = true → np_numpy st2 = true →
  generator st1 = generator st2 → stopped st1 = stopped st2 →
  np_numpy (step w1 st1 s) = true ∧ np_numpy (step w2 st2 s) = true
  ∧ generator (step w1 st1 s) = generator (step w2 st2 s)
  ∧ stopped (step w1 st1 s) = stopped (step w2 st2 s)
  ∧ ∃ new, draws (step w1 st1 s) = draws st1 ++ new
           ∧ draws (step w2 st2 s) = draws st2 ++ new.
Proof.
  unfold fixed_by_script, Seeding.step.
  destruct st1 as [g1 d1 np1 sp1], st2 as [g2 d2 np2 sp2]. simpl.
  intros Hs -> -> <- <-.
  destruct sp1; simpl.
  { repeat split. exists []. rewrite !app_nil_r. split; reflexivity. }
  destruct (classify true s) as [n|x n| | |]; try discriminate Hs.
  - destruct (valid_seed n); simpl; repeat split;
      exists []; rewrite !app_nil_r; split; reflexivity.
  - destruct (0 <=? n); simpl.
    + destruct (rand n g1) as [a g']. simpl. repeat split.
      eexists. split; reflexivity.
    + repeat split. exists []. rewrite !app_nil_r. split; reflexivity.
  - repeat split. exists []. rewrite !app_nil_r. split; reflexivity.
Qed.

Lemma run_fixed_by_script (w1 w2 : world) (file : list stmt) (st1 st2 : run_state) :
  Forall (λ s, fixed_by_script s = true) file →
  np_numpy st1 = true → np_numpy st2 = true →
  generator st1 = generator st2 → stopped st1 = stopped st2 →
  generator (foldl (step w1) st1 file) = generator (foldl (step w2) st2 file)
  ∧ stopped (foldl (step w1) st1 file) = stopped (foldl (step w2) st2 file)
  ∧ ∃ new, draws (foldl (step w1) st1 file) = draws st1 ++ new
           ∧ draws (foldl (step w2) st2 file) = draws st2 ++ new.
Proof.
  intros Hfile. revert st1 st2.
  induction Hfile as [|s file Hs _ IH]; intros st1 st2 Hnp1 Hnp2 Hg Hsp.
  - simpl. split; [exact Hg|]. split; [exact Hsp|].
    exists []. rewrite !app_nil_r. split; reflexivity.
  - simpl.
    destruct (step_fixed_by_script w1 w2 st1 st2 s Hs Hnp1 Hnp2 Hg Hsp)
      as (Hnp1' & Hnp2' & Hg' & Hsp' & new & Hd1 & Hd2).
    destruct (IH _ _ Hnp1' Hnp2' Hg' Hsp') as (Hg'' & Hsp'' & new' & Hd1' & Hd2').
    split; [exact Hg''|]. split; [exact Hsp''|].
    exists (new ++ new'). rewrite Hd1', Hd2', Hd1, Hd2, <- !app_assoc.
    split; reflexivity.
Qed.


End Lockstep.


Section SharedTargets.
Import Source Seeding.

(** X13: layer.py and parallel.py seed with the same number and then
    make the same first draw, so whenever a run of each gets to draw y,
    the two scripts work on the same targets, whatever worlds they run
    in and whatever states their generators started in. *)
Theorem seeded_scripts_share_targets :
  ∀ (rng ndarray world : Type) (seed : Z → rng) (rand : Z → rng → ndarray * rng)
    (other : world → nat → rng → option rng)
    (w1 w2 : world) (g1 g2 : rng) (a1 a2 : ndarray),
    targets seed rand other layer_py w1 g1 = Some a1 →
    targets seed rand other parallel_py w2 g2 = Some a2 →
    a1 = a2.
Proof.
  intros rng ndarray world seed rand other w1 w2 g1 g2 a1 a2 H1 H2.
  apply layer_py_targets in H1. apply parallel_py_targets in H2. congruence.
Qed.

End SharedTargets.

(** With a counter as generator both scripts draw [2; 12]. *)
Lemma seeded_scripts_share_targets_witness :
  Seeding.targets (world := unit) (λ n, n) (λ n g, ([g; g + n], g + 1))
    (λ _ _ g, Some g) Source.layer_py tt 0 = Some [2; 12]
  ∧ Seeding.targets (world := unit) (λ n, n) (λ n g, ([g; g + n], g + 1))
      (λ _ _ g, Some g) Source.parallel_py tt 7 = Some [2; 12]
  ∧ ([2; 12] : list Z) = [2; 12].
Proof.
  assert (Seeding.targets (world := unit) (λ n, n) (λ n g, ([g; g + n], g + 1))
            (λ _ _ g, Some g) Source.layer_py tt 0 = Some [2; 12]) as H0
    by (vm_compute; reflexivity).
  assert (Seeding.targets (world := unit) (λ n, n) (λ n g, ([g; g + n], g + 1))
            (λ _ _ g, Some g) Source.parallel_py tt 7 = Some [2; 12]) as H7
    by (vm_compute; reflexivity).
  split; [exact H0|]. split; [exact H7|].
  exact (seeded_scripts_share_targets Z (list Z) unit (λ n, n)
           (λ n g, ([g; g + n], g + 1)) (λ _ _ g, Some g) tt tt 0 7 _ _ H0 H7).
Defined.
